(** * smart_home_control.py: device model, simulated clock and automation rules

    A shallow embedding of [smart_home_control.py].  Every class of the
    program is a module holding a record for the object's attributes and
    one definition per method; a method is a computation in a small monad
    that threads the object's state, collects what the method prints and
    may raise a Python exception.  State written before an exception is
    raised stays written, as it does in Python. *)

From Stdlib Require Import Ascii String DecimalString DecimalPos DecimalZ QArith SpecFloat.
From stdpp Require Import gmap strings.

Local Open Scope Z_scope.

(** ** Exceptions and console output *)

Inductive exn : Type :=
| AttributeError
| ValueError
| OverflowError.

Inductive outcome (A : Type) : Type :=
| Done (a : A)
| Raised (e : exn).
Arguments Done {A} a.
Arguments Raised {A} e.

(** ** Python numbers

    A temperature is a Python number: an [int] of any size or a
    [float].  A float is an IEEE 754 binary64 value, here a
    [spec_float] with a 53-bit mantissa and exponents up to 1024; the
    operations are those of the Standard Library's specification of
    binary64 arithmetic, which round to nearest, ties to even. *)

Module Number.

Definition prec : Z := 53.
Definition emax : Z := 1024.

Inductive t : Type :=
| Int (z : Z)
| Float (f : spec_float).

(** The float literals [1.0] and [0.5]. *)
Definition one : spec_float := Eval vm_compute in binary_normalize prec emax 1 0 false.
Definition half : spec_float := Eval vm_compute in binary_normalize prec emax 1 (-1) false.

(** [float(z)]: the nearest float, ties to even; an int that rounds
    beyond the largest float raises [OverflowError]. *)
Definition float_of_int (z : Z) : outcome spec_float :=
  match binary_normalize prec emax z 0 false with
  | S754_infinity _ => Raised OverflowError
  | f => Done f
  end.

(** The exact value of a finite float. *)
Definition float_value (f : spec_float) : option Q :=
  match f with
  | S754_zero _ => Some 0%Q
  | S754_finite s m e => Some (inject_Z (cond_Zopp s (Zpos m)) * 2 ^ e)%Q
  | S754_infinity _ | S754_nan => None
  end.

(** The exact value of a number, when it has one. *)
Definition value (x : t) : option Q :=
  match x with
  | Int z => Some (inject_Z z)
  | Float f => float_value f
  end.


(** An int against a float: Python compares the exact values; an
    infinity is beyond every int and a NaN is unordered. *)
Definition compare_int_float (z : Z) (f : spec_float) : option comparison :=
  match f with
  | S754_nan => None
  | S754_infinity s => Some (if s then Gt else Lt)
  | _ =>
      match float_value f with
      | Some v => Some (inject_Z z ?= v)%Q
      | None => None
      end
  end.

Definition compare (x y : t) : option comparison :=
  match x, y with
  | Int a, Int b => Some (a ?= b)
  | Float f, Float g => SFcompare f g
  | Int a, Float g => compare_int_float a g
  | Float f, Int b =>
      match compare_int_float b f with
      | Some c => Some (CompOpp c)
      | None => None
      end
  end.

(** [x < y], [x <= y] and [x > y]; each is [False] when either side
    is a NaN. *)
Definition lt (x y : t) : bool :=
  match compare x y with Some Lt => true | _ => false end.
Definition le (x y : t) : bool :=
  match compare x y with Some (Lt | Eq) => true | _ => false end.
Definition gt (x y : t) : bool :=
  match compare x y with Some Gt => true | _ => false end.

(** [x - 1] and [x + 1] with the int literal [1]: exact on an int; on
    a float the literal is converted to [1.0] and the result rounded. *)
Definition minus_one (x : t) : t :=
  match x with
  | Int z => Int (z - 1)
  | Float f => Float (SFsub prec emax f one)
  end.

Definition plus_one (x : t) : t :=
  match x with
  | Int z => Int (z + 1)
  | Float f => Float (SFadd prec emax f one)
  end.

(** [x + 0.5] and [x - 0.5] with the float literal [0.5]: an int is
    converted to a float first, which may raise [OverflowError]; the
    result is a float, rounded. *)
Definition plus_half (x : t) : outcome t :=
  match x with
  | Int z =>
      match float_of_int z with
      | Done f => Done (Float (SFadd prec emax f half))
      | Raised e => Raised e
      end
  | Float f => Done (Float (SFadd prec emax f half))
  end.

Definition minus_half (x : t) : outcome t :=
  match x with
  | Int z =>
      match float_of_int z with
      | Done f => Done (Float (SFsub prec emax f half))
      | Raised e => Raised e
      end
  | Float f => Done (Float (SFsub prec emax f half))
  end.

(** The float of the decimal literal [m * 10 ^ (- d)], for [m] and
    [10 ^ d] below [2 ^ 53]: both are floats exactly, so their quotient,
    rounded once, is the float nearest to the literal. *)
Definition float_of_decimal (m : Z) (d : positive) : spec_float :=
  SFdiv prec emax (binary_normalize prec emax m 0 false)
                  (binary_normalize prec emax (10 ^ Zpos d) 0 false).

End Number.

(** One constructor per [print] statement of the modelled code; the
    arguments are the values interpolated into the f-string. *)
Inductive Msg : Type :=
| TurnedOn (name : string)                 (* [{name}] turned ON. *)
| AlreadyOn (name : string)                (* [{name}] is already ON. *)
| TurnedOff (name : string)                (* [{name}] turned OFF. *)
| AlreadyOff (name : string)               (* [{name}] is already OFF. *)
| BrightnessSet (name : string) (b : Z)    (* [{name}] brightness set to {b}%. *)
| InvalidBrightness (name : string)        (* [{name}] Invalid brightness level. Must be 0-100. *)
| TargetSet (name : string) (t : Number.t) (* [{name}] target temperature set to {t}°C. *)
| InvalidTarget (name : string)            (* [{name}] Invalid target temperature. Must be 10-30°C. *)
| ModeHeating (name : string) (c t : Number.t) (* [{name}] Mode: Heating (Current: {c}°C, Target: {t}°C) *)
| ModeCooling (name : string) (c t : Number.t) (* [{name}] Mode: Cooling (Current: {c}°C, Target: {t}°C) *)
| ModeIdle (name : string) (c t : Number.t) (* [{name}] Mode: Idle (Current: {c}°C, Target: {t}°C) *)
| ThermostatOff (name : string)            (* [{name}] Thermostat turned OFF. *)
| DoorLocked (name : string)               (* [{name}] Door LOCKED. *)
| AlreadyLocked (name : string)            (* [{name}] Door is already LOCKED. *)
| DoorUnlocked (name : string)             (* [{name}] Door UNLOCKED. *)
| AlreadyUnlocked (name : string)          (* [{name}] Door is already UNLOCKED. *)
| LockPowerAlwaysOn (name : string)        (* [{name}] Lock power is always on. *)
| LockPowerCannotOff (name : string)       (* [{name}] Lock power cannot be turned off (it's always ready). *)
| HubInitialized (hh mm : Z)               (* Smart Home Hub initialized. Current simulated time: HH:MM *)
| AddedDevice (name : string)              (* Added device: {name} *)
| TimeAdvanced (minutes hh mm : Z)         (* Simulated time advanced by {minutes} minutes. New time: HH:MM *)
| TimeSet (hh mm : Z)                      (* Simulated time set to: HH:MM *)
| InvalidTime                              (* Invalid hour or minute. Hour must be 0-23, minute 0-59. *)
| RunningRules                             (* --- Running Automation Rules --- *)
| Automation2300                           (* [AUTOMATION] It's 23:00. Turning off Living Room Light. *)
| Automation1800                           (* [AUTOMATION] It's 18:00. Turning on Front Door Light. *)
| Automation2200                           (* [AUTOMATION] It's 22:00. Locking Front Door. *)
| TempRise (name : string) (c : Number.t)  (* [{name}] Simulated temp rise to {c}°C. *)
| TempDrop (name : string) (c : Number.t)  (* [{name}] Simulated temp drop to {c}°C. *)
| RulesComplete.                           (* --- Automation Rules Check Complete --- *)

(** ** The method monad *)

Record run (S A : Type) : Type := Run {
  result : outcome A;
  state : S;
  printed : list Msg
}.
Arguments Run {S A} result state printed.
Arguments result {S A} r.
Arguments state {S A} r.
Arguments printed {S A} r.

Definition M (S A : Type) : Type := S -> run S A.

Definition ret {S A} (a : A) : M S A := fun s => Run (Done a) s [].

Definition bind {S A B} (m : M S A) (k : A -> M S B) : M S B := fun s =>
  let r := m s in
  match result r with
  | Done a =>
      let r' := k a (state r) in
      Run (result r') (state r') (printed r ++ printed r')
  | Raised e => Run (Raised e) (state r) (printed r)
  end.

Definition get {S} : M S S := fun s => Run (Done s) s [].
Definition put {S} (s : S) : M S unit := fun _ => Run (Done tt) s [].
Definition print {S} (m : Msg) : M S unit := fun s => Run (Done tt) s [m].
Definition raise {S A} (e : exn) : M S A := fun s => Run (Raised e) s [].

(** [try: m except e: h]; any other exception propagates. *)
Definition try_except {S} (m : M S unit) (e : exn) (h : M S unit) : M S unit := fun s =>
  let r := m s in
  match result r with
  | Done a => r
  | Raised e' =>
      match e, e' with
      | AttributeError, AttributeError
      | ValueError, ValueError
      | OverflowError, OverflowError =>
          let r' := h (state r) in
          Run (result r') (state r') (printed r ++ printed r')
      | _, _ => r
      end
  end.

(** Run a computation on a part of the state: [rd] reads the part and
    [wr] writes it back. *)
Definition zoom {S T A} (rd : S -> T) (wr : T -> S -> S) (m : M T A) : M S A := fun s =>
  let r := m (rd s) in
  Run (result r) (wr (state r) s) (printed r).

Declare Scope py_scope.
Delimit Scope py_scope with py.
Notation "x <- m ;; k" := (bind m (fun x => k))
  (at level 100, m at next level, k at level 200, right associativity) : py_scope.
Notation "m ;; k" := (bind m (fun _ => k))
  (at level 100, k at level 200, right associativity) : py_scope.
Local Open Scope py_scope.

(** [str(n)] for an [int], as an f-string renders it: decimal
    digits, with a leading minus sign for a negative number. *)
Definition str (n : Z) : string := NilZero.string_of_int (Z.to_int n).

(** ** class SmartDevice *)

Module SmartDevice.

Record t : Type := mk { name : string; is_on : bool }.

Definition init (name : string) : t := mk name false.

Definition set_is_on (b : bool) : M t unit := fun self =>
  Run (Done tt) (mk (name self) b) [].

Definition turn_on : M t unit :=
  self <- get ;;
  if negb (is_on self) then
    set_is_on true ;;
    print (TurnedOn (name self))
  else
    print (AlreadyOn (name self)).

Definition turn_off : M t unit :=
  self <- get ;;
  if is_on self then
    set_is_on false ;;
    print (TurnedOff (name self))
  else
    print (AlreadyOff (name self)).

Definition get_status (self : t) : string :=
  let status := if is_on self then "ON" else "OFF" in
  name self +:+ ": " +:+ status.

End SmartDevice.

(** ** class SmartLight(SmartDevice) *)

Module SmartLight.

Record t : Type := mk { base : SmartDevice.t; brightness : Z }.

Definition name (self : t) : string := SmartDevice.name (base self).
Definition is_on (self : t) : bool := SmartDevice.is_on (base self).

(** A call of a base-class method on [self]. *)
Definition super {A} (m : M SmartDevice.t A) : M t A :=
  zoom base (fun b self => mk b (brightness self)) m.

Definition init (name : string) (brightness : Z) : t :=
  mk (SmartDevice.init name) brightness.

(** The default argument [brightness=50]. *)
Definition init_default (name : string) : t := init name 50.

(** Inherited unchanged from [SmartDevice]. *)
Definition turn_on : M t unit := super SmartDevice.turn_on.
Definition turn_off : M t unit := super SmartDevice.turn_off.

Definition set_brightness_attr (level : Z) : M t unit := fun self =>
  Run (Done tt) (mk (base self) level) [].

Definition set_brightness (level : Z) : M t unit :=
  if (0 <=? level) && (level <=? 100) then
    set_brightness_attr level ;;
    self <- get ;;
    (if (0 <? level) && negb (is_on self) then turn_on
     else if (level =? 0) && is_on self then turn_off
     else ret tt) ;;
    self <- get ;;
    print (BrightnessSet (name self) (brightness self))
  else
    self <- get ;;
    print (InvalidBrightness (name self)).

Definition get_status (self : t) : string :=
  let status := SmartDevice.get_status (base self) in
  status +:+ ", Brightness: " +:+ str (brightness self) +:+ "%".

End SmartLight.

(** ** class SmartThermostat(SmartDevice) *)

(** The four values the [mode] attribute takes: the strings
    "Off", "Heating", "Cooling" and "Idle". *)
Inductive Mode : Type := Off | Heating | Cooling | Idle.

Module SmartThermostat.

Record t : Type := mk {
  base : SmartDevice.t;
  current_temp : Number.t;
  target_temp : Number.t;
  mode : Mode
}.

Definition name (self : t) : string := SmartDevice.name (base self).
Definition is_on (self : t) : bool := SmartDevice.is_on (base self).

Definition super {A} (m : M SmartDevice.t A) : M t A :=
  zoom base (fun b self => mk b (current_temp self) (target_temp self) (mode self)) m.

Definition init (name : string) (current_temp target_temp : Number.t) : t :=
  mk (SmartDevice.init name) current_temp target_temp Off.

(** The default arguments [current_temp=22, target_temp=20]. *)
Definition init_default (name : string) : t :=
  init name (Number.Int 22) (Number.Int 20).

Definition set_current_temp (c : Number.t) : M t unit := fun self =>
  Run (Done tt) (mk (base self) c (target_temp self) (mode self)) [].
Definition set_target_temp_attr (c : Number.t) : M t unit := fun self =>
  Run (Done tt) (mk (base self) (current_temp self) c (mode self)) [].
Definition set_mode (m : Mode) : M t unit := fun self =>
  Run (Done tt) (mk (base self) (current_temp self) (target_temp self) m) [].

Definition _update_mode : M t unit :=
  self <- get ;;
  if is_on self then
    if Number.lt (current_temp self) (Number.minus_one (target_temp self)) then
      set_mode Heating ;;
      print (ModeHeating (name self) (current_temp self) (target_temp self))
    else if Number.gt (current_temp self) (Number.plus_one (target_temp self)) then
      set_mode Cooling ;;
      print (ModeCooling (name self) (current_temp self) (target_temp self))
    else
      set_mode Idle ;;
      print (ModeIdle (name self) (current_temp self) (target_temp self))
  else
    set_mode Off.

Definition set_target_temp (temp : Number.t) : M t unit :=
  if Number.le (Number.Int 10) temp && Number.le temp (Number.Int 30) then
    set_target_temp_attr temp ;;
    self <- get ;;
    print (TargetSet (name self) (target_temp self)) ;;
    _update_mode
  else
    self <- get ;;
    print (InvalidTarget (name self)).

Definition turn_on : M t unit :=
  super SmartDevice.turn_on ;;
  _update_mode.

Definition turn_off : M t unit :=
  super SmartDevice.turn_off ;;
  set_mode Off ;;
  self <- get ;;
  print (ThermostatOff (name self)).

End SmartThermostat.

(** ** class SmartDoorLock(SmartDevice) *)

Module SmartDoorLock.

Record t : Type := mk { base : SmartDevice.t; is_locked : bool }.

Definition name (self : t) : string := SmartDevice.name (base self).
Definition is_on (self : t) : bool := SmartDevice.is_on (base self).

Definition init (name : string) (is_locked : bool) : t :=
  mk (SmartDevice.mk (SmartDevice.name (SmartDevice.init name)) true) is_locked.

(** The default argument [is_locked=True]. *)
Definition init_default (name : string) : t := init name true.

Definition set_is_locked (b : bool) : M t unit := fun self =>
  Run (Done tt) (mk (base self) b) [].

Definition lock : M t unit :=
  self <- get ;;
  if negb (is_locked self) then
    set_is_locked true ;;
    print (DoorLocked (name self))
  else
    print (AlreadyLocked (name self)).

Definition unlock : M t unit :=
  self <- get ;;
  if is_locked self then
    set_is_locked false ;;
    print (DoorUnlocked (name self))
  else
    print (AlreadyUnlocked (name self)).

Definition turn_on : M t unit :=
  self <- get ;;
  print (LockPowerAlwaysOn (name self)).

Definition turn_off : M t unit :=
  self <- get ;;
  print (LockPowerCannotOff (name self)).

Definition get_status (self : t) : string :=
  let status := if is_locked self then "LOCKED" else "UNLOCKED" in
  name self +:+ ": " +:+ status.

End SmartDoorLock.

(** ** Objects of any of the three classes

    A value stored in the hub is an instance of one of the three
    classes; a method call dispatches on the class, and an attribute or
    method the class does not have raises [AttributeError]. *)

Module Device.

Inductive t : Type :=
| Light (l : SmartLight.t)
| Thermostat (th : SmartThermostat.t)
| DoorLock (k : SmartDoorLock.t).

Definition name (d : t) : string :=
  match d with
  | Light l => SmartLight.name l
  | Thermostat th => SmartThermostat.name th
  | DoorLock k => SmartDoorLock.name k
  end.

Definition is_on (d : t) : bool :=
  match d with
  | Light l => SmartLight.is_on l
  | Thermostat th => SmartThermostat.is_on th
  | DoorLock k => SmartDoorLock.is_on k
  end.

Definition as_light {A} (m : M SmartLight.t A) : M t A := fun d =>
  match d with
  | Light l => let r := m l in Run (result r) (Light (state r)) (printed r)
  | _ => Run (Raised AttributeError) d []
  end.

Definition as_thermostat {A} (m : M SmartThermostat.t A) : M t A := fun d =>
  match d with
  | Thermostat th => let r := m th in Run (result r) (Thermostat (state r)) (printed r)
  | _ => Run (Raised AttributeError) d []
  end.

Definition as_lock {A} (m : M SmartDoorLock.t A) : M t A := fun d =>
  match d with
  | DoorLock k => let r := m k in Run (result r) (DoorLock (state r)) (printed r)
  | _ => Run (Raised AttributeError) d []
  end.

Definition turn_on : M t unit := fun d =>
  match d with
  | Light _ => as_light SmartLight.turn_on d
  | Thermostat _ => as_thermostat SmartThermostat.turn_on d
  | DoorLock _ => as_lock SmartDoorLock.turn_on d
  end.

Definition turn_off : M t unit := fun d =>
  match d with
  | Light _ => as_light SmartLight.turn_off d
  | Thermostat _ => as_thermostat SmartThermostat.turn_off d
  | DoorLock _ => as_lock SmartDoorLock.turn_off d
  end.

Definition set_brightness (level : Z) : M t unit :=
  as_light (SmartLight.set_brightness level).
Definition set_target_temp (temp : Number.t) : M t unit :=
  as_thermostat (SmartThermostat.set_target_temp temp).
Definition lock : M t unit := as_lock SmartDoorLock.lock.
Definition unlock : M t unit := as_lock SmartDoorLock.unlock.
Definition _update_mode : M t unit := as_thermostat SmartThermostat._update_mode.

(** Attribute reads and the one attribute the hub writes. *)
Definition get_name : M t string := d <- get ;; ret (name d).
Definition get_is_on : M t bool := d <- get ;; ret (is_on d).
Definition get_is_locked : M t bool :=
  as_lock (k <- get ;; ret (SmartDoorLock.is_locked k)).
Definition get_mode : M t Mode :=
  as_thermostat (th <- get ;; ret (SmartThermostat.mode th)).
Definition get_current_temp : M t Number.t :=
  as_thermostat (th <- get ;; ret (SmartThermostat.current_temp th)).
Definition get_target_temp : M t Number.t :=
  as_thermostat (th <- get ;; ret (SmartThermostat.target_temp th)).
Definition set_current_temp (c : Number.t) : M t unit :=
  as_thermostat (SmartThermostat.set_current_temp c).

End Device.

(** ** datetime.datetime, as far as the hub uses it

    The calendar date is kept as its proleptic Gregorian ordinal
    ([datetime.toordinal]); [datetime.min] has ordinal 1 and
    [datetime.max] has ordinal 3652059. *)

Module datetime.

Record t : Type := mk {
  ordinal : Z;
  hour : Z;
  minute : Z;
  second : Z;
  microsecond : Z
}.

Definition in_range (lo hi : Z) (o : option Z) : bool :=
  match o with
  | Some v => (lo <=? v) && (v <=? hi)
  | None => true
  end.

(** [self.replace(hour=.., minute=.., second=.., microsecond=..)]: a
    keyword that is not passed is [None] and keeps the field.  The
    arguments are first converted to C ints, and one that does not fit
    (below [- 2 ^ 31] or above [2 ^ 31 - 1]) raises [OverflowError];
    then a field out of range raises [ValueError]. *)
Definition replace (self : t) (hour' minute' second' microsecond' : option Z) : outcome t :=
  if negb (in_range (- 2 ^ 31) (2 ^ 31 - 1) hour' && in_range (- 2 ^ 31) (2 ^ 31 - 1) minute'
           && in_range (- 2 ^ 31) (2 ^ 31 - 1) second'
           && in_range (- 2 ^ 31) (2 ^ 31 - 1) microsecond') then
    Raised OverflowError
  else if in_range 0 23 hour' && in_range 0 59 minute'
     && in_range 0 59 second' && in_range 0 999999 microsecond' then
    Done (mk (ordinal self)
             (default (hour self) hour')
             (default (minute self) minute')
             (default (second self) second')
             (default (microsecond self) microsecond'))
  else Raised ValueError.

(** [self + datetime.timedelta(minutes=minutes)].  The timedelta
    must not exceed 999999999 days in magnitude, and the sum must stay
    between [datetime.min] and [datetime.max]; otherwise
    [OverflowError]. *)
Definition add_minutes (self : t) (minutes : Z) : outcome t :=
  if (-999999999 <=? minutes `div` 1440) && (minutes `div` 1440 <=? 999999999) then
    let total := hour self * 60 + minute self + minutes in
    let ordinal' := ordinal self + total `div` 1440 in
    if (1 <=? ordinal') && (ordinal' <=? 3652059) then
      Done (mk ordinal'
               ((total `mod` 1440) `div` 60)
               (total `mod` 60)
               (second self)
               (microsecond self))
    else Raised OverflowError
  else Raised OverflowError.

(** What [datetime.datetime.now()] can return. *)
Definition valid (d : t) : Prop :=
  1 <= ordinal d <= 3652059 /\ 0 <= hour d <= 23 /\ 0 <= minute d <= 59 /\
  0 <= second d <= 59 /\ 0 <= microsecond d <= 999999.

End datetime.

(** [str.lower()] on a string of ASCII characters: the letters A to
    Z are mapped to a to z and every other character is kept.  (On
    other strings [str.lower()] follows the Unicode case tables; names
    with such characters are outside what is proved about lookups.) *)
Definition lower_ascii (c : ascii) : ascii :=
  let n := nat_of_ascii c in
  if ((65 <=? n) && (n <=? 90))%nat then ascii_of_nat (n + 32) else c.

Fixpoint lower (s : string) : string :=
  match s with
  | EmptyString => EmptyString
  | String c s' => String (lower_ascii c) (lower s')
  end.

(** ** class SmartHomeHub

    [devices] is the dict from lower-cased names to device objects.  An
    object is stored under one key only (the lower-cased name it was
    added with), so a reference to a stored object is modelled by its
    key, and a method call through the reference updates the dict entry.
    The wall clock read by [datetime.datetime.now()] is an argument
    [now] of the two methods that read it. *)

Module SmartHomeHub.

Record t : Type := mk {
  devices : gmap string Device.t;
  simulated_time : datetime.t
}.

Definition set_simulated_time_attr (d : datetime.t) : M t unit := fun self =>
  Run (Done tt) (mk (devices self) d) [].

(** Lift a library call that may raise. *)
Definition call {A} (o : outcome A) : M t A := fun self => Run o self [].

Definition init (now : datetime.t) : run t unit :=
  (d <- call (datetime.replace now None None (Some 0) (Some 0)) ;;
   put (mk ∅ d) ;;
   print (HubInitialized (datetime.hour d) (datetime.minute d)))
  (mk ∅ now).

Definition add_device (device : Device.t) : M t unit :=
  self <- get ;;
  put (mk (<[lower (Device.name device) := device]> (devices self)) (simulated_time self)) ;;
  print (AddedDevice (Device.name device)).

(** [self.devices.get(name.lower())]: a reference to the stored
    object, or [None]. *)
Definition get_device (name : string) : M t (option string) :=
  self <- get ;;
  match devices self !! lower name with
  | Some _ => ret (Some (lower name))
  | None => ret None
  end.

(** A method call or attribute access through a reference. *)
Definition on {A} (ref : string) (m : M Device.t A) : M t A := fun self =>
  match devices self !! ref with
  | Some d =>
      let r := m d in
      Run (result r) (mk (<[ref := state r]> (devices self)) (simulated_time self)) (printed r)
  | None => Run (Raised AttributeError) self []
  end.

(** Rule 1: Turn off living room lights at 23:00 (11 PM) *)
Definition rule_1 (current_hour current_minute : Z) : M t unit :=
  living_room_light <- get_device "Living Room Light" ;;
  match living_room_light with
  | Some obj =>
      if (current_hour =? 23) && (current_minute =? 0) then
        is_on <- on obj Device.get_is_on ;;
        if is_on then
          print Automation2300 ;;
          on obj Device.turn_off
        else ret tt
      else ret tt
  | None => ret tt
  end.

(** Rule 2: Turn on front door light at 18:00 (6 PM) if it's off *)
Definition rule_2 (current_hour current_minute : Z) : M t unit :=
  front_door_light <- get_device "Front Door Light" ;;
  match front_door_light with
  | Some obj =>
      if (current_hour =? 18) && (current_minute =? 0) then
        is_on <- on obj Device.get_is_on ;;
        if negb is_on then
          print Automation1800 ;;
          on obj Device.turn_on
        else ret tt
      else ret tt
  | None => ret tt
  end.

(** Rule 3: Lock Front Door at 22:00 (10 PM) *)
Definition rule_3 (current_hour current_minute : Z) : M t unit :=
  front_door_lock <- get_device "Front Door Lock" ;;
  match front_door_lock with
  | Some obj =>
      if (current_hour =? 22) && (current_minute =? 0) then
        is_locked <- on obj Device.get_is_locked ;;
        if negb is_locked then
          print Automation2200 ;;
          on obj Device.lock
        else ret tt
      else ret tt
  | None => ret tt
  end.

(** Rule 4, the inner block: "Simulate temperature changing over
    time, very basic". *)
Definition simulate_temperature (obj : string) : M t unit :=
  mode <- on obj Device.get_mode ;;
  match mode with
  | Heating =>
      c <- on obj Device.get_current_temp ;;
      g <- on obj Device.get_target_temp ;;
      if Number.lt c g then
        risen <- call (Number.plus_half c) ;;
        on obj (Device.set_current_temp risen) ;;
        name <- on obj Device.get_name ;;
        c' <- on obj Device.get_current_temp ;;
        print (TempRise name c')
      else ret tt
  | Cooling =>
      c <- on obj Device.get_current_temp ;;
      g <- on obj Device.get_target_temp ;;
      if Number.gt c g then
        dropped <- call (Number.minus_half c) ;;
        on obj (Device.set_current_temp dropped) ;;
        name <- on obj Device.get_name ;;
        c' <- on obj Device.get_current_temp ;;
        print (TempDrop name c')
      else ret tt
  | _ => ret tt
  end.

(** Rule 4: Adjust thermostat based on simulated temperature changes *)
Definition rule_4 : M t unit :=
  thermostat <- get_device "Main Thermostat" ;;
  match thermostat with
  | Some obj =>
      is_on <- on obj Device.get_is_on ;;
      if is_on then
        simulate_temperature obj ;;
        on obj Device._update_mode
      else ret tt
  | None => ret tt
  end.

Definition run_automation_rules : M t unit :=
  print RunningRules ;;
  self <- get ;;
  let current_hour := datetime.hour (simulated_time self) in
  let current_minute := datetime.minute (simulated_time self) in
  rule_1 current_hour current_minute ;;
  rule_2 current_hour current_minute ;;
  rule_3 current_hour current_minute ;;
  rule_4 ;;
  print RulesComplete.

Definition advance_time (minutes : Z) : M t unit :=
  self <- get ;;
  d <- call (datetime.add_minutes (simulated_time self) minutes) ;;
  set_simulated_time_attr d ;;
  print (TimeAdvanced minutes (datetime.hour d) (datetime.minute d)) ;;
  run_automation_rules.

Definition set_simulated_time (now : datetime.t) (hour minute : Z) : M t unit :=
  try_except
    (new_time <- call (datetime.replace now (Some hour) (Some minute) (Some 0) (Some 0)) ;;
     set_simulated_time_attr new_time ;;
     print (TimeSet (datetime.hour new_time) (datetime.minute new_time)) ;;
     run_automation_rules)
    ValueError
    (print InvalidTime).

End SmartHomeHub.

(** ** Clients of the hub

    The calls a client of the classes can make, one after the other:
    register a newly constructed device, call a method of a registered
    device, move the clock, run the rules. *)

Inductive construction : Type :=
| NewLight (name : string) (brightness : Z)
| NewThermostat (name : string) (current_temp target_temp : Number.t)
| NewDoorLock (name : string) (is_locked : bool).

Definition construct (c : construction) : Device.t :=
  match c with
  | NewLight n b => Device.Light (SmartLight.init n b)
  | NewThermostat n c g => Device.Thermostat (SmartThermostat.init n c g)
  | NewDoorLock n l => Device.DoorLock (SmartDoorLock.init n l)
  end.

Inductive method : Type :=
| turn_on_
| turn_off_
| set_brightness_ (level : Z)
| set_target_temp_ (temp : Number.t)
| lock_
| unlock_.

Definition invoke (m : method) : M Device.t unit :=
  match m with
  | turn_on_ => Device.turn_on
  | turn_off_ => Device.turn_off
  | set_brightness_ level => Device.set_brightness level
  | set_target_temp_ temp => Device.set_target_temp temp
  | lock_ => Device.lock
  | unlock_ => Device.unlock
  end.

Inductive command : Type :=
| add_device_ (c : construction)
| control_ (name : string) (m : method)
| advance_time_ (minutes : Z)
| set_simulated_time_ (now : datetime.t) (hour minute : Z)
| run_automation_rules_.

(** [hub.get_device(name).m(...)]; on [None] the call raises
    [AttributeError]. *)
Definition control (name : string) (m : method) : M SmartHomeHub.t unit :=
  device <- SmartHomeHub.get_device name ;;
  match device with
  | Some obj => SmartHomeHub.on obj (invoke m)
  | None => raise AttributeError
  end.

Definition perform (c : command) : M SmartHomeHub.t unit :=
  match c with
  | add_device_ c => SmartHomeHub.add_device (construct c)
  | control_ name m => control name m
  | advance_time_ minutes => SmartHomeHub.advance_time minutes
  | set_simulated_time_ now hour minute => SmartHomeHub.set_simulated_time now hour minute
  | run_automation_rules_ => SmartHomeHub.run_automation_rules
  end.

(** The hub after a sequence of calls; a caller that catches an
    exception goes on with the hub as the failed call left it. *)
Fixpoint perform_all (cs : list command) (hub : SmartHomeHub.t) : SmartHomeHub.t :=
  match cs with
  | [] => hub
  | c :: cs' => perform_all cs' (state (perform c hub))
  end.

(** The five devices [main] registers. *)
Definition main_devices : list command :=
  [ add_device_ (NewLight "Living Room Light" 50);
    add_device_ (NewLight "Bedroom Light" 75);
    add_device_ (NewThermostat "Main Thermostat" (Number.Int 25) (Number.Int 22));
    add_device_ (NewDoorLock "Front Door Lock" true);
    add_device_ (NewLight "Front Door Light" 0) ].

(** [n] automation cycles in a row. *)
Fixpoint cycles (n : nat) (hub : SmartHomeHub.t) : SmartHomeHub.t :=
  match n with
  | O => hub
  | S n' => cycles n' (state (SmartHomeHub.run_automation_rules hub))
  end.

(** ** Properties named by the specification *)

(** The brightness-power coupling of a light. *)
Definition coupled (l : SmartLight.t) : Prop :=
  (SmartLight.brightness l = 0 -> SmartLight.is_on l = false) /\
  (0 < SmartLight.brightness l -> SmartLight.is_on l = true).

(** The dead-band rule in the specification's words: Off when the
    device is off; otherwise Heating when [current < target - 1],
    Cooling when [current > target + 1], Idle otherwise.  The
    comparisons and [target - 1], [target + 1] are those of Python
    numbers. *)
Definition dead_band (is_on : bool) (current_temp target_temp : Number.t) : Mode :=
  if is_on then
    if Number.lt current_temp (Number.minus_one target_temp) then Heating
    else if Number.gt current_temp (Number.plus_one target_temp) then Cooling
    else Idle
  else Off.

Definition mode_consistent (th : SmartThermostat.t) : Prop :=
  SmartThermostat.mode th =
  dead_band (SmartThermostat.is_on th) (SmartThermostat.current_temp th)
            (SmartThermostat.target_temp th).

Definition device_consistent (d : Device.t) : Prop :=
  match d with
  | Device.Thermostat th => mode_consistent th
  | _ => True
  end.

(** Every thermostat registered in the hub has the mode of the dead-band rule. *)
Definition thermostats_consistent (hub : SmartHomeHub.t) : Prop :=
  map_Forall (fun _ d => device_consistent d) (SmartHomeHub.devices hub).

(** The thermostat-drift rule in the specification's words: [+ 0.5]
    when heating below the target, [- 0.5] when cooling above it, then
    the mode recomputed.  Adding [0.5] to an int converts it to a float,
    which raises [OverflowError] for an int beyond the floats. *)
Definition drifted_temp (th : SmartThermostat.t) : outcome Number.t :=
  let c := SmartThermostat.current_temp th in
  let g := SmartThermostat.target_temp th in
  match SmartThermostat.mode th with
  | Heating => if Number.lt c g then Number.plus_half c else Done c
  | Cooling => if Number.gt c g then Number.minus_half c else Done c
  | _ => Done c
  end.

Definition thermostat_drift (th : SmartThermostat.t) : outcome SmartThermostat.t :=
  let g := SmartThermostat.target_temp th in
  match drifted_temp th with
  | Done c =>
      Done (SmartThermostat.mk (SmartThermostat.base th) c g
                               (dead_band (SmartThermostat.is_on th) c g))
  | Raised e => Raised e
  end.

(** The hour and minute a cycle reads from the simulated clock. *)
Definition current_hour (hub : SmartHomeHub.t) : Z :=
  datetime.hour (SmartHomeHub.simulated_time hub).
Definition current_minute (hub : SmartHomeHub.t) : Z :=
  datetime.minute (SmartHomeHub.simulated_time hub).

(** The simulated clock shows [hh:mm]. *)
Definition clock_at (hub : SmartHomeHub.t) (hh mm : Z) : Prop :=
  datetime.hour (SmartHomeHub.simulated_time hub) = hh /\
  datetime.minute (SmartHomeHub.simulated_time hub) = mm.

(** The object registered as "Front Door Lock", if any, is a door lock. *)
Definition front_door_lock_is_lock (hub : SmartHomeHub.t) : Prop :=
  forall d, SmartHomeHub.devices hub !! "front door lock" = Some d ->
            exists k, d = Device.DoorLock k.

(** Rule 3 can run to its end: the clock is not at 22:00, or the
    object registered as "Front Door Lock", if any, is a door lock. *)
Definition lock_rule_runs (hub : SmartHomeHub.t) : Prop :=
  ~ clock_at hub 22 0 \/ front_door_lock_is_lock hub.

(** A light with its power flag replaced. *)
Definition with_power (l : SmartLight.t) (b : bool) : SmartLight.t :=
  SmartLight.mk (SmartDevice.mk (SmartLight.name l) b) (SmartLight.brightness l).

(** The thermostat after one application of the drift rule; an
    application that raises leaves the thermostat as it was. *)
Definition drift_or_stay (th : SmartThermostat.t) : SmartThermostat.t :=
  match thermostat_drift th with
  | Done th' => th'
  | Raised _ => th
  end.

(** [n] applications of the thermostat-drift rule. *)
Fixpoint drifts (n : nat) (th : SmartThermostat.t) : SmartThermostat.t :=
  match n with
  | O => th
  | S n' => drifts n' (drift_or_stay th)
  end.

(** ** Temperatures in half degrees

    The temperatures the program reaches from the ints of [main] are
    multiples of 0.5.  Between -2048 and 2048 degrees binary64 holds
    them exactly and adds and subtracts 0.5 exactly; this is checked
    value by value. *)

(** The float [k / 2]. *)
Definition half_degrees (k : Z) : spec_float :=
  binary_normalize Number.prec Number.emax k (-1) false.

(** [x] is the temperature [k / 2], an int or a float, between -2048
    and 2048 degrees. *)
Definition is_half_degrees (x : Number.t) (k : Z) : Prop :=
  -4096 < k < 4096 /\
  match x with
  | Number.Int z => k = 2 * z
  | Number.Float f => f = half_degrees k
  end.

Definition spec_float_eqb (x y : spec_float) : bool :=
  match x, y with
  | S754_zero a, S754_zero b => Bool.eqb a b
  | S754_infinity a, S754_infinity b => Bool.eqb a b
  | S754_nan, S754_nan => true
  | S754_finite a m e, S754_finite b n f => Bool.eqb a b && (m =? n)%positive && (e =? f)
  | _, _ => false
  end.

(** On the float [k / 2], adding and subtracting [0.5] is exact, the
    int [k] converts to the float [2 k / 2], and the value is [k / 2]. *)
Definition half_degrees_exact (k : Z) : bool :=
  spec_float_eqb (SFadd Number.prec Number.emax (half_degrees k) Number.half)
                 (half_degrees (k + 1)) &&
  spec_float_eqb (SFsub Number.prec Number.emax (half_degrees k) Number.half)
                 (half_degrees (k - 1)) &&
  spec_float_eqb (binary_normalize Number.prec Number.emax k 0 false)
                 (half_degrees (2 * k)) &&
  match Number.float_value (half_degrees k) with
  | Some v => Qeq_bool v (k # 2)
  | None => false
  end.

(** [P] holds from [- n] to [n]. *)
Fixpoint forall_upto (n : nat) (P : Z -> bool) : bool :=
  match n with
  | O => P 0
  | S n' => P (Z.of_nat n) && P (- Z.of_nat n) && forall_upto n' P
  end.



(** ** A concrete run: the hub of [main]

    The wall clock reads 10:30:15 on the day with ordinal 738000 when
    the hub is created. *)
Definition wall_clock : datetime.t := datetime.mk 738000 10 30 15 123456.

Definition main_hub : SmartHomeHub.t :=
  perform_all main_devices (state (SmartHomeHub.init wall_clock)).

(** The hub of [main] after the thermostat and the living room light
    were turned on and the front door was unlocked. *)
Definition evening_hub : SmartHomeHub.t :=
  perform_all [ control_ "Main Thermostat" turn_on_;
                control_ "Living Room Light" turn_on_;
                control_ "Front Door Lock" unlock_ ] main_hub.

(** The hub of [main] after a day has passed on the simulated clock. *)
Definition next_day_hub : SmartHomeHub.t :=
  perform_all [advance_time_ 1440] main_hub.

(** The thermostat of [main] (current 25, target 22) after [turn_on()]. *)
Definition main_thermostat_on : SmartThermostat.t :=
  state (SmartThermostat.turn_on
           (SmartThermostat.init "Main Thermostat" (Number.Int 25) (Number.Int 22))).






(** The computation [m] never ends by raising [e]. *)
Definition never_raises {S A} (e : exn) (m : M S A) : Prop :=
  forall s, result (m s) <> Raised e.

(** ** Notions used for the further properties *)

(** The string consists of ASCII characters (code points below 128).
    On such a string [str.lower()] changes the letters A to Z and
    nothing else, which is what [lower] does; the properties of
    lookups by name are stated for such names. *)
Definition is_ascii (s : string) : bool :=
  forallb (fun c => (nat_of_ascii c <? 128)%nat) (list_ascii_of_string s).

(** The names a call passes are ASCII strings. *)
Definition ascii_names (c : command) : Prop :=
  match c with
  | add_device_ k => is_ascii (Device.name (construct k)) = true
  | control_ name _ => is_ascii name = true
  | _ => True
  end.

(** Every key of the registry is the lower-cased name of the object
    stored under it, an ASCII name. *)
Definition keys_are_lowered_names (hub : SmartHomeHub.t) : Prop :=
  map_Forall (fun k d => k = lower (Device.name d) /\ is_ascii (Device.name d) = true)
             (SmartHomeHub.devices hub).

(** Every registered door lock has its power flag set. *)
Definition locks_powered (hub : SmartHomeHub.t) : Prop :=
  map_Forall (fun _ d => match d with
                         | Device.DoorLock k => SmartDoorLock.is_on k = true
                         | _ => True
                         end) (SmartHomeHub.devices hub).

(** The ranges the setters accept: brightness 0-100, target 10-30. *)
Definition in_setter_range (d : Device.t) : Prop :=
  match d with
  | Device.Light l => 0 <= SmartLight.brightness l <= 100
  | Device.Thermostat th =>
      exists v, Number.value (SmartThermostat.target_temp th) = Some v /\ (10 <= v <= 30)%Q
  | Device.DoorLock _ => True
  end.

Definition all_in_setter_range (hub : SmartHomeHub.t) : Prop :=
  map_Forall (fun _ d => in_setter_range d) (SmartHomeHub.devices hub).

(** The devices a sequence of calls constructs are within the ranges. *)
Definition constructs_in_range (c : command) : Prop :=
  match c with
  | add_device_ k => in_setter_range (construct k)
  | _ => True
  end.

(** A simulated clock as the hub keeps it: a time of day on a date
    that [datetime] can represent, with seconds and microseconds zero. *)
Definition on_the_minute (d : datetime.t) : Prop :=
  1 <= datetime.ordinal d <= 3652059 /\
  0 <= datetime.hour d <= 23 /\ 0 <= datetime.minute d <= 59 /\
  datetime.second d = 0 /\ datetime.microsecond d = 0.

(** The wall clock readings a sequence of calls hands to
    [set_simulated_time] are readings [datetime.now()] can return. *)
Definition wall_clock_valid (c : command) : Prop :=
  match c with
  | set_simulated_time_ now _ _ => datetime.valid now
  | _ => True
  end.










(** None of the four names the rules look up is registered. *)
Definition no_rule_device (hub : SmartHomeHub.t) : Prop :=
  SmartHomeHub.devices hub !! "living room light" = None /\
  SmartHomeHub.devices hub !! "front door light" = None /\
  SmartHomeHub.devices hub !! "front door lock" = None /\
  SmartHomeHub.devices hub !! "main thermostat" = None.

(** * Verification *)

(** ** Python numbers *)

Lemma lt_Int (a b : Z) : Number.lt (Number.Int a) (Number.Int b) = (a <? b).
Proof. unfold Number.lt, Z.ltb; cbn. by destruct (a ?= b). Qed.

Lemma gt_Int (a b : Z) : Number.gt (Number.Int a) (Number.Int b) = (a >? b).
Proof. unfold Number.gt, Z.gtb; cbn. by destruct (a ?= b). Qed.

Lemma le_Int (a b : Z) : Number.le (Number.Int a) (Number.Int b) = (a <=? b).
Proof. unfold Number.le, Z.leb; cbn. by destruct (a ?= b). Qed.

(** A number between two ints has a value, which lies between them. *)
Lemma le_le_value (a b : Z) (x : Number.t) :
  Number.le (Number.Int a) x = true ->
  Number.le x (Number.Int b) = true ->
  exists v, Number.value x = Some v /\ (inject_Z a <= v <= inject_Z b)%Q.
Proof.
  destruct x as [z | f].
  - rewrite !le_Int. intros H1 H2. exists (inject_Z z). split; [done |].
    rewrite <- !Zle_Qle. lia.
  - unfold Number.le; cbn. unfold Number.compare_int_float.
    assert (Hfin : forall v, Number.float_value f = Some v ->
      match (inject_Z a ?= v)%Q with Lt | Eq => true | Gt => false end = true ->
      match CompOpp (inject_Z b ?= v)%Q with Lt | Eq => true | Gt => false end = true ->
      exists v', Some v = Some v' /\ (inject_Z a <= v' <= inject_Z b)%Q).
    { intros v _ H1 H2. exists v. split; [done |]. split.
      - apply Qle_alt. by destruct (inject_Z a ?= v)%Q.
      - apply Qle_alt. rewrite <- Qgt_alt.
        intros Hgt. apply Qgt_alt in Hgt.
        rewrite Qcompare_antisym in H2.
        destruct (v ?= inject_Z b)%Q eqn:E; try done. }
    destruct f as [s | [] | | s m e]; cbn; try done.
    + by apply Hfin.
    + by apply Hfin.
Qed.


(** [float(z)] raises nothing but [OverflowError]. *)
Lemma float_of_int_raises (z : Z) (e : exn) :
  Number.float_of_int z = Raised e -> e = OverflowError.
Proof.
  unfold Number.float_of_int.
  destruct (binary_normalize Number.prec Number.emax z 0 false); congruence.
Qed.

Lemma plus_half_raises (x : Number.t) (e : exn) :
  Number.plus_half x = Raised e -> e = OverflowError.
Proof.
  destruct x as [z | f]; cbn; [| done].
  destruct (Number.float_of_int z) eqn:E; [done |].
  intros [= <-]. by apply (float_of_int_raises z).
Qed.

Lemma minus_half_raises (x : Number.t) (e : exn) :
  Number.minus_half x = Raised e -> e = OverflowError.
Proof.
  destruct x as [z | f]; cbn; [| done].
  destruct (Number.float_of_int z) eqn:E; [done |].
  intros [= <-]. by apply (float_of_int_raises z).
Qed.

(** ** Lights *)

Section Light.
Variable l : SmartLight.t.

Lemma light_turn_on :
  state (SmartLight.turn_on l) = with_power l true /\
  result (SmartLight.turn_on l) = Done tt.
Proof.
  destruct l as [[n on] b]. by destruct on.
Qed.

Lemma light_turn_off :
  state (SmartLight.turn_off l) = with_power l false /\
  result (SmartLight.turn_off l) = Done tt.
Proof.
  destruct l as [[n on] b]. by destruct on.
Qed.

Lemma set_brightness_invalid (level : Z) :
  ~ (0 <= level <= 100) ->
  SmartLight.set_brightness level l =
  Run (Done tt) l [InvalidBrightness (SmartLight.name l)].
Proof.
  intros H. unfold SmartLight.set_brightness.
  destruct (Z.leb_spec 0 level), (Z.leb_spec level 100); simpl; (reflexivity || lia).
Qed.

Lemma set_brightness_valid (level : Z) :
  0 <= level <= 100 ->
  state (SmartLight.set_brightness level l) =
    SmartLight.mk (SmartDevice.mk (SmartLight.name l) (0 <? level)) level /\
  result (SmartLight.set_brightness level l) = Done tt.
Proof.
  intros [H0 H100]. unfold SmartLight.set_brightness.
  destruct (Z.leb_spec 0 level); [| lia].
  destruct (Z.leb_spec level 100); [| lia].
  destruct l as [[n on] b]. simpl.
  destruct (Z.ltb_spec 0 level), (Z.eqb_spec level 0), on; simpl; (done || lia).
Qed.

End Light.

(** ** Thermostats *)

Lemma update_mode_run (th : SmartThermostat.t) :
  state (SmartThermostat._update_mode th) =
    SmartThermostat.mk (SmartThermostat.base th)
      (SmartThermostat.current_temp th) (SmartThermostat.target_temp th)
      (dead_band (SmartThermostat.is_on th) (SmartThermostat.current_temp th)
                 (SmartThermostat.target_temp th)) /\
  result (SmartThermostat._update_mode th) = Done tt.
Proof.
  destruct th as [[n on] c g m].
  unfold SmartThermostat._update_mode, dead_band, bind, get; simpl.
  destruct on; simpl; [| done].
  destruct (Number.lt c (Number.minus_one g)); simpl; [done |].
  by destruct (Number.gt c (Number.plus_one g)).
Qed.

Lemma update_mode_consistent (th : SmartThermostat.t) :
  mode_consistent (state (SmartThermostat._update_mode th)).
Proof.
  destruct (update_mode_run th) as [-> _]. reflexivity.
Qed.

Lemma thermostat_turn_off_run (th : SmartThermostat.t) :
  state (SmartThermostat.turn_off th) =
    SmartThermostat.mk (SmartDevice.mk (SmartThermostat.name th) false)
      (SmartThermostat.current_temp th) (SmartThermostat.target_temp th) Off /\
  result (SmartThermostat.turn_off th) = Done tt.
Proof.
  destruct th as [[n on] c g m]. by destruct on.
Qed.

Lemma thermostat_turn_on_run (th : SmartThermostat.t) :
  state (SmartThermostat.turn_on th) =
    SmartThermostat.mk (SmartDevice.mk (SmartThermostat.name th) true)
      (SmartThermostat.current_temp th) (SmartThermostat.target_temp th)
      (dead_band true (SmartThermostat.current_temp th) (SmartThermostat.target_temp th)) /\
  result (SmartThermostat.turn_on th) = Done tt.
Proof.
  destruct th as [[n on] c g m].
  unfold SmartThermostat.turn_on, bind.
  assert (Hsup : exists o,
    SmartThermostat.super SmartDevice.turn_on (SmartThermostat.mk (SmartDevice.mk n on) c g m) =
    Run (Done tt) (SmartThermostat.mk (SmartDevice.mk n true) c g m) o).
  { destruct on; eexists; reflexivity. }
  destruct Hsup as [o ->]. cbn [result state printed].
  by destruct (update_mode_run (SmartThermostat.mk (SmartDevice.mk n true) c g m)) as [-> ->].
Qed.

Lemma set_target_temp_invalid (th : SmartThermostat.t) (temp : Number.t) :
  Number.le (Number.Int 10) temp && Number.le temp (Number.Int 30) = false ->
  SmartThermostat.set_target_temp temp th =
  Run (Done tt) th [InvalidTarget (SmartThermostat.name th)].
Proof.
  intros H. unfold SmartThermostat.set_target_temp. by rewrite H.
Qed.

Lemma set_target_temp_valid (th : SmartThermostat.t) (temp : Number.t) :
  Number.le (Number.Int 10) temp && Number.le temp (Number.Int 30) = true ->
  state (SmartThermostat.set_target_temp temp th) =
    SmartThermostat.mk (SmartThermostat.base th) (SmartThermostat.current_temp th) temp
      (dead_band (SmartThermostat.is_on th) (SmartThermostat.current_temp th) temp) /\
  result (SmartThermostat.set_target_temp temp th) = Done tt.
Proof.
  intros H. unfold SmartThermostat.set_target_temp. rewrite H.
  destruct th as [b c g m]. unfold bind; cbn -[SmartThermostat._update_mode].
  by destruct (update_mode_run (SmartThermostat.mk b c temp m)) as [-> ->].
Qed.

Lemma set_target_temp_consistent (th : SmartThermostat.t) (temp : Number.t) :
  mode_consistent th ->
  mode_consistent (state (SmartThermostat.set_target_temp temp th)).
Proof.
  intros H. unfold SmartThermostat.set_target_temp.
  destruct (Number.le (Number.Int 10) temp && Number.le temp (Number.Int 30)); [| exact H].
  destruct th as [b c g m]. unfold bind; cbn -[SmartThermostat._update_mode].
  apply update_mode_consistent.
Qed.

Lemma init_consistent (name : string) (c g : Number.t) :
  mode_consistent (SmartThermostat.init name c g).
Proof. reflexivity. Qed.

(** ** Door locks *)

Lemma lock_run (k : SmartDoorLock.t) :
  SmartDoorLock.lock k =
  Run (Done tt) (SmartDoorLock.mk (SmartDoorLock.base k) true)
      [if SmartDoorLock.is_locked k then AlreadyLocked (SmartDoorLock.name k)
       else DoorLocked (SmartDoorLock.name k)].
Proof. destruct k as [b []]; reflexivity. Qed.

Lemma unlock_run (k : SmartDoorLock.t) :
  SmartDoorLock.unlock k =
  Run (Done tt) (SmartDoorLock.mk (SmartDoorLock.base k) false)
      [if SmartDoorLock.is_locked k then DoorUnlocked (SmartDoorLock.name k)
       else AlreadyUnlocked (SmartDoorLock.name k)].
Proof. destruct k as [b []]; reflexivity. Qed.

(** ** Method calls keep a thermostat's mode consistent *)

Lemma device_turn_on_consistent (d : Device.t) :
  device_consistent d -> device_consistent (state (Device.turn_on d)).
Proof.
  destruct d as [l | th | k]; simpl; try done.
  intros _. destruct (thermostat_turn_on_run th) as [-> _]. reflexivity.
Qed.

Lemma device_turn_off_consistent (d : Device.t) :
  device_consistent d -> device_consistent (state (Device.turn_off d)).
Proof.
  destruct d as [l | th | k]; simpl; try done.
  intros _. destruct (thermostat_turn_off_run th) as [-> _]. reflexivity.
Qed.

Lemma invoke_consistent (m : method) (d : Device.t) :
  device_consistent d -> device_consistent (state (invoke m d)).
Proof.
  destruct m; simpl.
  - apply device_turn_on_consistent.
  - apply device_turn_off_consistent.
  - by destruct d.
  - destruct d; simpl; try done. apply set_target_temp_consistent.
  - by destruct d.
  - by destruct d.
Qed.

Lemma construct_consistent (c : construction) : device_consistent (construct c).
Proof. destruct c; simpl; [done | apply init_consistent | done]. Qed.

(** ** The registry *)

Lemma get_device_run (name : string) (hub : SmartHomeHub.t) :
  SmartHomeHub.get_device name hub =
  Run (Done (match SmartHomeHub.devices hub !! lower name with
             | Some _ => Some (lower name)
             | None => None
             end)) hub [].
Proof.
  unfold SmartHomeHub.get_device, bind, get; simpl.
  by destruct (SmartHomeHub.devices hub !! lower name).
Qed.

Lemma on_Some {A} (ref : string) (m : M Device.t A) (d : Device.t) (hub : SmartHomeHub.t) :
  SmartHomeHub.devices hub !! ref = Some d ->
  SmartHomeHub.on ref m hub =
  Run (result (m d))
      (SmartHomeHub.mk (<[ref := state (m d)]> (SmartHomeHub.devices hub))
                       (SmartHomeHub.simulated_time hub))
      (printed (m d)).
Proof. intros H. unfold SmartHomeHub.on. by rewrite H. Qed.

Lemma on_read {A} (ref : string) (m : M Device.t A) (d : Device.t) (hub : SmartHomeHub.t) :
  SmartHomeHub.devices hub !! ref = Some d ->
  state (m d) = d ->
  SmartHomeHub.on ref m hub = Run (result (m d)) hub (printed (m d)).
Proof.
  intros H Hd. rewrite (on_Some _ _ _ _ H), Hd, insert_id by done.
  by destruct hub.
Qed.

Lemma device_turn_off_done (d : Device.t) : result (Device.turn_off d) = Done tt.
Proof.
  destruct d as [l | th | k]; simpl.
  - apply light_turn_off.
  - apply thermostat_turn_off_run.
  - done.
Qed.

Lemma device_turn_on_done (d : Device.t) : result (Device.turn_on d) = Done tt.
Proof.
  destruct d as [l | th | k]; simpl.
  - apply light_turn_on.
  - apply thermostat_turn_on_run.
  - done.
Qed.

Lemma rule_1_run (hh mm : Z) (hub : SmartHomeHub.t) :
  result (SmartHomeHub.rule_1 hh mm hub) = Done tt /\
  state (SmartHomeHub.rule_1 hh mm hub) =
    match SmartHomeHub.devices hub !! "living room light" with
    | Some d =>
        if (hh =? 23) && (mm =? 0) && Device.is_on d then
          SmartHomeHub.mk (<["living room light" := state (Device.turn_off d)]>
                             (SmartHomeHub.devices hub))
                          (SmartHomeHub.simulated_time hub)
        else hub
    | None => hub
    end.
Proof.
  unfold SmartHomeHub.rule_1, bind. rewrite get_device_run.
  change (lower "Living Room Light") with "living room light".
  cbn [result state printed].
  destruct (SmartHomeHub.devices hub !! "living room light") as [d |] eqn:E; [| done].
  destruct ((hh =? 23) && (mm =? 0)); [| done].
  rewrite (on_read _ Device.get_is_on d) by done.
  cbn [result state printed Device.get_is_on bind get ret andb].
  destruct (Device.is_on d); [| done].
  cbn [result state printed print app].
  rewrite (on_Some _ _ d) by done.
  cbn [result state printed]. by rewrite device_turn_off_done.
Qed.

Lemma rule_2_run (hh mm : Z) (hub : SmartHomeHub.t) :
  result (SmartHomeHub.rule_2 hh mm hub) = Done tt /\
  state (SmartHomeHub.rule_2 hh mm hub) =
    match SmartHomeHub.devices hub !! "front door light" with
    | Some d =>
        if (hh =? 18) && (mm =? 0) && negb (Device.is_on d) then
          SmartHomeHub.mk (<["front door light" := state (Device.turn_on d)]>
                             (SmartHomeHub.devices hub))
                          (SmartHomeHub.simulated_time hub)
        else hub
    | None => hub
    end.
Proof.
  unfold SmartHomeHub.rule_2, bind. rewrite get_device_run.
  change (lower "Front Door Light") with "front door light".
  cbn [result state printed].
  destruct (SmartHomeHub.devices hub !! "front door light") as [d |] eqn:E; [| done].
  destruct ((hh =? 18) && (mm =? 0)); [| done].
  rewrite (on_read _ Device.get_is_on d) by done.
  cbn [result state printed Device.get_is_on bind get ret andb].
  destruct (Device.is_on d); [done |].
  cbn [result state printed print app negb].
  rewrite (on_Some _ _ d) by done.
  cbn [result state printed]. by rewrite device_turn_on_done.
Qed.

Lemma rule_3_state (hh mm : Z) (hub : SmartHomeHub.t) :
  state (SmartHomeHub.rule_3 hh mm hub) =
    match SmartHomeHub.devices hub !! "front door lock" with
    | Some (Device.DoorLock k) =>
        if (hh =? 22) && (mm =? 0) && negb (SmartDoorLock.is_locked k) then
          SmartHomeHub.mk
            (<["front door lock" :=
                 Device.DoorLock (SmartDoorLock.mk (SmartDoorLock.base k) true)]>
               (SmartHomeHub.devices hub))
            (SmartHomeHub.simulated_time hub)
        else hub
    | _ => hub
    end.
Proof.
  unfold SmartHomeHub.rule_3, bind. rewrite get_device_run.
  change (lower "Front Door Lock") with "front door lock".
  cbn [result state printed].
  destruct (SmartHomeHub.devices hub !! "front door lock") as [d |] eqn:E; [| done].
  destruct ((hh =? 22) && (mm =? 0)).
  2: { by destruct d. }
  rewrite (on_read _ Device.get_is_locked d) by (done || by destruct d).
  destruct d as [l | th | k]; [done | done |].
  cbn [result state printed Device.get_is_locked Device.as_lock bind get ret andb].
  destruct (SmartDoorLock.is_locked k) eqn:Ek; [done |].
  cbn [result state printed print app negb].
  rewrite (on_Some _ _ (Device.DoorLock k)) by done.
  cbn [result state printed Device.lock Device.as_lock].
  by rewrite lock_run.
Qed.

Lemma rule_3_done (hh mm : Z) (hub : SmartHomeHub.t) :
  ~ (hh = 22 /\ mm = 0) \/ front_door_lock_is_lock hub ->
  result (SmartHomeHub.rule_3 hh mm hub) = Done tt.
Proof.
  intros H.
  unfold SmartHomeHub.rule_3, bind. rewrite get_device_run.
  change (lower "Front Door Lock") with "front door lock".
  cbn [result state printed].
  destruct (SmartHomeHub.devices hub !! "front door lock") as [d |] eqn:E; [| done].
  destruct (Z.eqb_spec hh 22), (Z.eqb_spec mm 0); try done.
  destruct H as [H | H]; [tauto |].
  destruct (H d E) as [k ->]. cbn [andb].
  rewrite (on_read _ Device.get_is_locked (Device.DoorLock k)) by done.
  cbn [result state printed Device.get_is_locked Device.as_lock bind get ret andb].
  destruct (SmartDoorLock.is_locked k) eqn:Ek; [done |].
  cbn [result state printed print app negb].
  rewrite (on_Some _ _ (Device.DoorLock k)) by done.
  cbn [result state printed Device.lock Device.as_lock].
  by rewrite lock_run.
Qed.

Lemma rule_3_raises (hub : SmartHomeHub.t) (d : Device.t) :
  SmartHomeHub.devices hub !! "front door lock" = Some d ->
  (forall k, d <> Device.DoorLock k) ->
  SmartHomeHub.rule_3 22 0 hub = Run (Raised AttributeError) hub [].
Proof.
  intros E Hd.
  unfold SmartHomeHub.rule_3, bind. rewrite get_device_run.
  change (lower "Front Door Lock") with "front door lock".
  cbn [result state printed]. rewrite E. cbn [Z.eqb Pos.eqb andb].
  rewrite (on_read _ Device.get_is_locked d) by (done || by destruct d).
  destruct d as [l | th | k]; [done | done |]. by destruct (Hd k).
Qed.

(** ** Stepping through a sequence of statements *)

Lemma state_Run {S A} (r : outcome A) (s : S) (o : list Msg) : state (Run r s o) = s.
Proof. reflexivity. Qed.


Lemma bind_Done {S A B} (m : M S A) (k : A -> M S B) (s s' : S) (a : A) (o : list Msg) :
  m s = Run (Done a) s' o ->
  bind m k s = Run (result (k a s')) (state (k a s')) (o ++ printed (k a s')).
Proof. intros H. unfold bind. by rewrite H. Qed.

Lemma bind_Raised {S A B} (m : M S A) (k : A -> M S B) (s s' : S) (e : exn) (o : list Msg) :
  m s = Run (Raised e) s' o ->
  bind m k s = Run (Raised e) s' o.
Proof. intros H. unfold bind. by rewrite H. Qed.

Lemma bind_result_Done {S A B} (m : M S A) (k : A -> M S B) (s : S) (a : A) :
  result (m s) = Done a ->
  bind m k s =
  Run (result (k a (state (m s)))) (state (k a (state (m s))))
      (printed (m s) ++ printed (k a (state (m s)))).
Proof. intros H. unfold bind. by rewrite H. Qed.

Lemma bind_result_Raised {S A B} (m : M S A) (k : A -> M S B) (s : S) (e : exn) :
  result (m s) = Raised e ->
  bind m k s = Run (Raised e) (state (m s)) (printed (m s)).
Proof. intros H. unfold bind. by rewrite H. Qed.

Lemma bind_Done_state {S A B} (m : M S A) (k : A -> M S B) (s s' : S) (a : A) (o : list Msg) :
  m s = Run (Done a) s' o -> state (bind m k s) = state (k a s').
Proof. intros H. unfold bind. by rewrite H. Qed.

Lemma bind_Done_result {S A B} (m : M S A) (k : A -> M S B) (s s' : S) (a : A) (o : list Msg) :
  m s = Run (Done a) s' o -> result (bind m k s) = result (k a s').
Proof. intros H. unfold bind. by rewrite H. Qed.

Lemma bind_result_Done_state {S A B} (m : M S A) (k : A -> M S B) (s : S) (a : A) :
  result (m s) = Done a -> state (bind m k s) = state (k a (state (m s))).
Proof. intros H. unfold bind. by rewrite H. Qed.

Lemma bind_result_Done_result {S A B} (m : M S A) (k : A -> M S B) (s : S) (a : A) :
  result (m s) = Done a -> result (bind m k s) = result (k a (state (m s))).
Proof. intros H. unfold bind. by rewrite H. Qed.

Lemma bind_result_Raised_state {S A B} (m : M S A) (k : A -> M S B) (s : S) (e : exn) :
  result (m s) = Raised e -> state (bind m k s) = state (m s).
Proof. intros H. unfold bind. by rewrite H. Qed.

Lemma bind_result_Raised_result {S A B} (m : M S A) (k : A -> M S B) (s : S) (e : exn) :
  result (m s) = Raised e -> result (bind m k s) = Raised e.
Proof. intros H. unfold bind. by rewrite H. Qed.

Lemma bind_then_print {S} (m : M S unit) (x : Msg) (s : S) :
  state (bind m (fun _ => print x) s) = state (m s) /\
  result (bind m (fun _ => print x) s) = result (m s).
Proof. unfold bind. by destruct (m s) as [[[] | e] s' o]. Qed.

Lemma print_run {S} (x : Msg) (s : S) : print x s = Run (Done tt) s [x].
Proof. reflexivity. Qed.

Lemma get_run {S} (s : S) : get s = Run (Done s) s [].
Proof. reflexivity. Qed.

Lemma ret_run {S A} (a : A) (s : S) : ret a s = Run (Done a) s [].
Proof. reflexivity. Qed.

Ltac step lem :=
  erewrite bind_Done by (apply lem; (eassumption || done));
  cbn [result state printed].

(** ** Rule 4 on a registered thermostat *)

Section MainThermostat.
Variables (hub : SmartHomeHub.t) (ref : string) (th : SmartThermostat.t).
Hypothesis registered : SmartHomeHub.devices hub !! ref = Some (Device.Thermostat th).

Lemma on_get_mode :
  SmartHomeHub.on ref Device.get_mode hub = Run (Done (SmartThermostat.mode th)) hub [].
Proof. by rewrite (on_read _ _ _ _ registered). Qed.

Lemma on_get_current_temp :
  SmartHomeHub.on ref Device.get_current_temp hub =
  Run (Done (SmartThermostat.current_temp th)) hub [].
Proof. by rewrite (on_read _ _ _ _ registered). Qed.

Lemma on_get_target_temp :
  SmartHomeHub.on ref Device.get_target_temp hub =
  Run (Done (SmartThermostat.target_temp th)) hub [].
Proof. by rewrite (on_read _ _ _ _ registered). Qed.

Lemma on_set_current_temp (c : Number.t) :
  SmartHomeHub.on ref (Device.set_current_temp c) hub =
  Run (Done tt)
      (SmartHomeHub.mk
         (<[ref := Device.Thermostat
              (SmartThermostat.mk (SmartThermostat.base th) c
                 (SmartThermostat.target_temp th) (SmartThermostat.mode th))]>
            (SmartHomeHub.devices hub))
         (SmartHomeHub.simulated_time hub)) [].
Proof. by rewrite (on_Some _ _ _ _ registered). Qed.

Lemma on_update_mode :
  exists o,
  SmartHomeHub.on ref Device._update_mode hub =
  Run (Done tt)
      (SmartHomeHub.mk
         (<[ref := Device.Thermostat
              (SmartThermostat.mk (SmartThermostat.base th)
                 (SmartThermostat.current_temp th) (SmartThermostat.target_temp th)
                 (dead_band (SmartThermostat.is_on th) (SmartThermostat.current_temp th)
                    (SmartThermostat.target_temp th)))]>
            (SmartHomeHub.devices hub))
         (SmartHomeHub.simulated_time hub)) o.
Proof.
  rewrite (on_Some _ _ _ _ registered).
  cbn [Device._update_mode Device.as_thermostat result state printed].
  destruct (update_mode_run th) as [-> ->]. by eexists.
Qed.

End MainThermostat.

Lemma on_get_is_on (hub : SmartHomeHub.t) (ref : string) (d : Device.t) :
  SmartHomeHub.devices hub !! ref = Some d ->
  SmartHomeHub.on ref Device.get_is_on hub = Run (Done (Device.is_on d)) hub [].
Proof. intros H. by rewrite (on_read _ _ _ _ H). Qed.

Lemma on_get_name (hub : SmartHomeHub.t) (ref : string) (d : Device.t) :
  SmartHomeHub.devices hub !! ref = Some d ->
  SmartHomeHub.on ref Device.get_name hub = Run (Done (Device.name d)) hub [].
Proof. intros H. by rewrite (on_read _ _ _ _ H). Qed.

(** ** Rule 4 *)

Lemma call_run {A} (o : outcome A) (hub : SmartHomeHub.t) :
  SmartHomeHub.call o hub = Run o hub [].
Proof. reflexivity. Qed.


Lemma simulate_temperature_run (hub : SmartHomeHub.t) (ref : string) (th : SmartThermostat.t) :
  SmartHomeHub.devices hub !! ref = Some (Device.Thermostat th) ->
  exists o,
  SmartHomeHub.simulate_temperature ref hub =
  match drifted_temp th with
  | Done c =>
      Run (Done tt)
        (SmartHomeHub.mk
           (<[ref := Device.Thermostat
                (SmartThermostat.mk (SmartThermostat.base th) c
                   (SmartThermostat.target_temp th) (SmartThermostat.mode th))]>
              (SmartHomeHub.devices hub))
           (SmartHomeHub.simulated_time hub)) o
  | Raised e => Run (Raised e) hub o
  end.
Proof.
  intros E.
  assert (Hsame : forall c, c = SmartThermostat.current_temp th ->
    hub = SmartHomeHub.mk
      (<[ref := Device.Thermostat
           (SmartThermostat.mk (SmartThermostat.base th) c
              (SmartThermostat.target_temp th) (SmartThermostat.mode th))]>
         (SmartHomeHub.devices hub))
      (SmartHomeHub.simulated_time hub)).
  { intros c ->. rewrite insert_id; [by destruct hub | by destruct th]. }
  unfold SmartHomeHub.simulate_temperature, drifted_temp.
  step on_get_mode.
  destruct (SmartThermostat.mode th) eqn:Hm.
  - eexists. cbn [ret result state printed]. by rewrite <- Hsame.
  - step on_get_current_temp. step on_get_target_temp.
    destruct (Number.lt _ _).
    + destruct (Number.plus_half (SmartThermostat.current_temp th)) as [c1 | e] eqn:Hc.
      * step (@call_run Number.t).
        step on_set_current_temp.
        set (h1 := SmartHomeHub.mk _ _).
        assert (E1 : SmartHomeHub.devices h1 !! ref = Some (Device.Thermostat
          (SmartThermostat.mk (SmartThermostat.base th) c1
             (SmartThermostat.target_temp th) (SmartThermostat.mode th))))
          by apply lookup_insert_eq.
        step on_get_name. step on_get_current_temp.
        subst h1. cbn [print result state printed]. rewrite Hm. by eexists.
      * erewrite bind_Raised by apply call_run. by eexists.
    + eexists. cbn [ret result state printed]. by rewrite <- Hsame.
  - step on_get_current_temp. step on_get_target_temp.
    destruct (Number.gt _ _).
    + destruct (Number.minus_half (SmartThermostat.current_temp th)) as [c1 | e] eqn:Hc.
      * step (@call_run Number.t).
        step on_set_current_temp.
        set (h1 := SmartHomeHub.mk _ _).
        assert (E1 : SmartHomeHub.devices h1 !! ref = Some (Device.Thermostat
          (SmartThermostat.mk (SmartThermostat.base th) c1
             (SmartThermostat.target_temp th) (SmartThermostat.mode th))))
          by apply lookup_insert_eq.
        step on_get_name. step on_get_current_temp.
        subst h1. cbn [print result state printed]. rewrite Hm. by eexists.
      * erewrite bind_Raised by apply call_run. by eexists.
    + eexists. cbn [ret result state printed]. by rewrite <- Hsame.
  - eexists. cbn [ret result state printed]. by rewrite <- Hsame.
Qed.

(** Rule 4 on a registered thermostat: the thermostat, when on, is
    replaced by its drift; when the drift raises, so does the rule, and
    the thermostat stays as it was. *)
Lemma rule_4_thermostat (hub : SmartHomeHub.t) (th : SmartThermostat.t) :
  SmartHomeHub.devices hub !! "main thermostat" = Some (Device.Thermostat th) ->
  result (SmartHomeHub.rule_4 hub) =
    (if SmartThermostat.is_on th then
       match thermostat_drift th with
       | Done _ => Done tt
       | Raised e => Raised e
       end
     else Done tt) /\
  state (SmartHomeHub.rule_4 hub) =
    if SmartThermostat.is_on th then
      SmartHomeHub.mk
        (<["main thermostat" := Device.Thermostat (drift_or_stay th)]>
           (SmartHomeHub.devices hub))
        (SmartHomeHub.simulated_time hub)
    else hub.
Proof.
  intros E. unfold SmartHomeHub.rule_4.
  step get_device_run.
  change (lower "Main Thermostat") with "main thermostat". rewrite E.
  step on_get_is_on. cbn [Device.is_on].
  destruct (SmartThermostat.is_on th) eqn:Hon; [| done].
  destruct (simulate_temperature_run hub "main thermostat" th E) as [o Hsim].
  unfold drift_or_stay, thermostat_drift.
  destruct (drifted_temp th) as [c | e].
  - erewrite bind_Done by exact Hsim. cbn [result state printed].
    set (h1 := SmartHomeHub.mk _ _).
    edestruct (on_update_mode h1 "main thermostat") as [o' ->].
    { apply lookup_insert_eq. }
    subst h1.
    cbn [result state printed SmartHomeHub.devices SmartHomeHub.simulated_time
         SmartThermostat.base SmartThermostat.current_temp SmartThermostat.target_temp
         SmartThermostat.is_on].
    split; [done |]. by rewrite insert_insert_eq.
  - erewrite bind_Raised by exact Hsim. cbn [result state].
    split; [done |]. rewrite insert_id by done. by destruct hub.
Qed.

Lemma rule_4_state (hub : SmartHomeHub.t) :
  state (SmartHomeHub.rule_4 hub) =
    match SmartHomeHub.devices hub !! "main thermostat" with
    | Some (Device.Thermostat th) =>
        if SmartThermostat.is_on th then
          SmartHomeHub.mk
            (<["main thermostat" := Device.Thermostat (drift_or_stay th)]>
               (SmartHomeHub.devices hub))
            (SmartHomeHub.simulated_time hub)
        else hub
    | _ => hub
    end.
Proof.
  destruct (SmartHomeHub.devices hub !! "main thermostat") as [d |] eqn:E.
  - destruct d as [l | th | k]; [| by apply rule_4_thermostat |].
    all: unfold SmartHomeHub.rule_4; step get_device_run;
      change (lower "Main Thermostat") with "main thermostat"; rewrite E;
      step on_get_is_on;
      destruct (Device.is_on _); [| done];
      unfold SmartHomeHub.simulate_temperature;
      erewrite bind_Raised; [done |];
      erewrite bind_Raised; [done |];
      by rewrite (on_read _ Device.get_mode _ _ E).
  - unfold SmartHomeHub.rule_4. step get_device_run.
    change (lower "Main Thermostat") with "main thermostat".
    by rewrite E.
Qed.

(** ** What one rule leaves alone *)

Lemma rule_1_time (hh mm : Z) (hub : SmartHomeHub.t) :
  SmartHomeHub.simulated_time (state (SmartHomeHub.rule_1 hh mm hub)) =
  SmartHomeHub.simulated_time hub.
Proof.
  destruct (rule_1_run hh mm hub) as [_ ->].
  destruct (SmartHomeHub.devices hub !! _); [| done]. by destruct (_ && _).
Qed.

Lemma rule_2_time (hh mm : Z) (hub : SmartHomeHub.t) :
  SmartHomeHub.simulated_time (state (SmartHomeHub.rule_2 hh mm hub)) =
  SmartHomeHub.simulated_time hub.
Proof.
  destruct (rule_2_run hh mm hub) as [_ ->].
  destruct (SmartHomeHub.devices hub !! _); [| done]. by destruct (_ && _).
Qed.

Lemma rule_3_time (hh mm : Z) (hub : SmartHomeHub.t) :
  SmartHomeHub.simulated_time (state (SmartHomeHub.rule_3 hh mm hub)) =
  SmartHomeHub.simulated_time hub.
Proof.
  rewrite rule_3_state.
  destruct (SmartHomeHub.devices hub !! _) as [[l | th | k] |]; try done.
  by destruct (_ && _).
Qed.

Lemma rule_4_time (hub : SmartHomeHub.t) :
  SmartHomeHub.simulated_time (state (SmartHomeHub.rule_4 hub)) =
  SmartHomeHub.simulated_time hub.
Proof.
  rewrite rule_4_state.
  destruct (SmartHomeHub.devices hub !! _) as [[l | th | k] |]; try done.
  by destruct (SmartThermostat.is_on th).
Qed.

Lemma rule_1_frame (hh mm : Z) (hub : SmartHomeHub.t) (key : string) :
  key <> "living room light" ->
  SmartHomeHub.devices (state (SmartHomeHub.rule_1 hh mm hub)) !! key =
  SmartHomeHub.devices hub !! key.
Proof.
  intros Hk. destruct (rule_1_run hh mm hub) as [_ ->].
  destruct (SmartHomeHub.devices hub !! "living room light"); [| done].
  destruct (_ && _); [| done]. by apply lookup_insert_ne.
Qed.

Lemma rule_2_frame (hh mm : Z) (hub : SmartHomeHub.t) (key : string) :
  key <> "front door light" ->
  SmartHomeHub.devices (state (SmartHomeHub.rule_2 hh mm hub)) !! key =
  SmartHomeHub.devices hub !! key.
Proof.
  intros Hk. destruct (rule_2_run hh mm hub) as [_ ->].
  destruct (SmartHomeHub.devices hub !! "front door light"); [| done].
  destruct (_ && _); [| done]. by apply lookup_insert_ne.
Qed.

Lemma rule_3_frame (hh mm : Z) (hub : SmartHomeHub.t) (key : string) :
  key <> "front door lock" ->
  SmartHomeHub.devices (state (SmartHomeHub.rule_3 hh mm hub)) !! key =
  SmartHomeHub.devices hub !! key.
Proof.
  intros Hk. rewrite rule_3_state.
  destruct (SmartHomeHub.devices hub !! "front door lock") as [[l | th | k] |]; try done.
  destruct (_ && _); [| done]. by apply lookup_insert_ne.
Qed.

Lemma rule_4_frame (hub : SmartHomeHub.t) (key : string) :
  key <> "main thermostat" ->
  SmartHomeHub.devices (state (SmartHomeHub.rule_4 hub)) !! key =
  SmartHomeHub.devices hub !! key.
Proof.
  intros Hk. rewrite rule_4_state.
  destruct (SmartHomeHub.devices hub !! "main thermostat") as [[l | th | k] |]; try done.
  destruct (SmartThermostat.is_on th); [| done]. by apply lookup_insert_ne.
Qed.

(** ** One automation cycle, rule by rule *)

Lemma run_automation_rules_run (hub : SmartHomeHub.t) :
  let hh := datetime.hour (SmartHomeHub.simulated_time hub) in
  let mm := datetime.minute (SmartHomeHub.simulated_time hub) in
  let h1 := state (SmartHomeHub.rule_1 hh mm hub) in
  let h2 := state (SmartHomeHub.rule_2 hh mm h1) in
  let r3 := SmartHomeHub.rule_3 hh mm h2 in
  state (SmartHomeHub.run_automation_rules hub) =
    match result r3 with
    | Done _ => state (SmartHomeHub.rule_4 (state r3))
    | Raised _ => state r3
    end /\
  result (SmartHomeHub.run_automation_rules hub) =
    match result r3 with
    | Done _ => result (SmartHomeHub.rule_4 (state r3))
    | Raised e => Raised e
    end.
Proof.
  intros hh mm h1 h2 r3.
  unfold SmartHomeHub.run_automation_rules.
  rewrite (bind_Done_state _ _ _ _ _ _ (print_run _ _)),
          (bind_Done_result _ _ _ _ _ _ (print_run _ _)).
  rewrite (bind_Done_state _ _ _ _ _ _ (get_run _)),
          (bind_Done_result _ _ _ _ _ _ (get_run _)).
  rewrite (bind_result_Done_state _ _ _ tt (proj1 (rule_1_run hh mm hub))),
          (bind_result_Done_result _ _ _ tt (proj1 (rule_1_run hh mm hub))).
  rewrite (bind_result_Done_state _ _ _ tt (proj1 (rule_2_run hh mm h1))),
          (bind_result_Done_result _ _ _ tt (proj1 (rule_2_run hh mm h1))).
  destruct (result r3) as [[] | e] eqn:Hr3.
  - rewrite (bind_result_Done_state _ _ _ tt Hr3),
            (bind_result_Done_result _ _ _ tt Hr3).
    apply bind_then_print.
  - by rewrite (bind_result_Raised_state _ _ _ e Hr3),
               (bind_result_Raised_result _ _ _ e Hr3).
Qed.

Lemma run_automation_rules_time (hub : SmartHomeHub.t) :
  SmartHomeHub.simulated_time (state (SmartHomeHub.run_automation_rules hub)) =
  SmartHomeHub.simulated_time hub.
Proof.
  destruct (run_automation_rules_run hub) as [-> _].
  destruct (result _); rewrite ?rule_4_time, rule_3_time, rule_2_time, rule_1_time; done.
Qed.

(** ** Every rule keeps the thermostats' modes consistent *)

Lemma drift_consistent (th : SmartThermostat.t) :
  mode_consistent th -> mode_consistent (drift_or_stay th).
Proof.
  intros H. unfold drift_or_stay, thermostat_drift.
  by destruct (drifted_temp th).
Qed.

Lemma insert_consistent (hub : SmartHomeHub.t) (key : string) (d : Device.t) :
  thermostats_consistent hub -> device_consistent d ->
  thermostats_consistent
    (SmartHomeHub.mk (<[key := d]> (SmartHomeHub.devices hub))
                     (SmartHomeHub.simulated_time hub)).
Proof. intros H Hd. by apply map_Forall_insert_2. Qed.

Lemma rule_1_consistent (hh mm : Z) (hub : SmartHomeHub.t) :
  thermostats_consistent hub ->
  thermostats_consistent (state (SmartHomeHub.rule_1 hh mm hub)).
Proof.
  intros H. destruct (rule_1_run hh mm hub) as [_ ->].
  destruct (SmartHomeHub.devices hub !! _) as [d |] eqn:E; [| done].
  destruct (_ && _); [| done].
  apply insert_consistent; [done |].
  apply device_turn_off_consistent. by apply (map_Forall_lookup_1 _ _ _ _ H E).
Qed.

Lemma rule_2_consistent (hh mm : Z) (hub : SmartHomeHub.t) :
  thermostats_consistent hub ->
  thermostats_consistent (state (SmartHomeHub.rule_2 hh mm hub)).
Proof.
  intros H. destruct (rule_2_run hh mm hub) as [_ ->].
  destruct (SmartHomeHub.devices hub !! _) as [d |] eqn:E; [| done].
  destruct (_ && _); [| done].
  apply insert_consistent; [done |].
  apply device_turn_on_consistent. by apply (map_Forall_lookup_1 _ _ _ _ H E).
Qed.

Lemma rule_3_consistent (hh mm : Z) (hub : SmartHomeHub.t) :
  thermostats_consistent hub ->
  thermostats_consistent (state (SmartHomeHub.rule_3 hh mm hub)).
Proof.
  intros H. rewrite rule_3_state.
  destruct (SmartHomeHub.devices hub !! _) as [[l | th | k] |] eqn:E; try done.
  destruct (_ && _); [| done]. by apply insert_consistent.
Qed.

Lemma rule_4_consistent (hub : SmartHomeHub.t) :
  thermostats_consistent hub ->
  thermostats_consistent (state (SmartHomeHub.rule_4 hub)).
Proof.
  intros H. rewrite rule_4_state.
  destruct (SmartHomeHub.devices hub !! _) as [[l | th | k] |] eqn:E; try done.
  destruct (SmartThermostat.is_on th); [| done].
  apply insert_consistent; [done |].
  apply drift_consistent. exact (map_Forall_lookup_1 _ _ _ _ H E).
Qed.

Lemma run_automation_rules_consistent (hub : SmartHomeHub.t) :
  thermostats_consistent hub ->
  thermostats_consistent (state (SmartHomeHub.run_automation_rules hub)).
Proof.
  intros H. destruct (run_automation_rules_run hub) as [-> _].
  destruct (result _); [apply rule_4_consistent |];
    by apply rule_3_consistent, rule_2_consistent, rule_1_consistent.
Qed.

Lemma thermostats_consistent_time (hub : SmartHomeHub.t) (d : datetime.t) :
  thermostats_consistent hub ->
  thermostats_consistent (SmartHomeHub.mk (SmartHomeHub.devices hub) d).
Proof. done. Qed.

Lemma advance_time_consistent (minutes : Z) (hub : SmartHomeHub.t) :
  thermostats_consistent hub ->
  thermostats_consistent (state (SmartHomeHub.advance_time minutes hub)).
Proof.
  intros H. unfold SmartHomeHub.advance_time, bind, get, SmartHomeHub.call.
  cbn [result state printed].
  destruct (datetime.add_minutes _ _) as [d | e]; [| done].
  cbn [result state printed SmartHomeHub.set_simulated_time_attr print].
  set (h' := SmartHomeHub.mk _ d).
  pose proof (run_automation_rules_consistent h' H) as H'.
  by destruct (result (SmartHomeHub.run_automation_rules h')).
Qed.

Lemma set_simulated_time_consistent (now : datetime.t) (hour minute : Z) (hub : SmartHomeHub.t) :
  thermostats_consistent hub ->
  thermostats_consistent (state (SmartHomeHub.set_simulated_time now hour minute hub)).
Proof.
  intros H. unfold SmartHomeHub.set_simulated_time, try_except, bind, SmartHomeHub.call.
  cbn [result state printed].
  destruct (datetime.replace _ _ _ _ _) as [d | e].
  - cbn [result state printed SmartHomeHub.set_simulated_time_attr print].
    set (h' := SmartHomeHub.mk _ d).
    pose proof (run_automation_rules_consistent h' H) as H'.
    destruct (result (SmartHomeHub.run_automation_rules h')) as [[] | []]; done.
  - by destruct e.
Qed.

Lemma control_consistent (name : string) (m : method) (hub : SmartHomeHub.t) :
  thermostats_consistent hub ->
  thermostats_consistent (state (control name m hub)).
Proof.
  intros H. unfold control, bind. rewrite get_device_run. cbn [result state printed].
  destruct (SmartHomeHub.devices hub !! lower name) as [d |] eqn:E; [| done].
  rewrite (on_Some _ _ d) by done. cbn [state].
  assert (Hd : thermostats_consistent
    (SmartHomeHub.mk (<[lower name := state (invoke m d)]> (SmartHomeHub.devices hub))
                     (SmartHomeHub.simulated_time hub))).
  { apply insert_consistent; [done |].
    apply invoke_consistent. by apply (map_Forall_lookup_1 _ _ _ _ H E). }
  by destruct (result (invoke m d)).
Qed.

Lemma perform_consistent (c : command) (hub : SmartHomeHub.t) :
  thermostats_consistent hub -> thermostats_consistent (state (perform c hub)).
Proof.
  intros H. destruct c as [c | name m | minutes | now hh mm |]; simpl perform.
  - by apply insert_consistent, construct_consistent.
  - by apply control_consistent.
  - by apply advance_time_consistent.
  - by apply set_simulated_time_consistent.
  - by apply run_automation_rules_consistent.
Qed.

Lemma perform_all_consistent (cs : list command) (hub : SmartHomeHub.t) :
  thermostats_consistent hub -> thermostats_consistent (perform_all cs hub).
Proof.
  revert hub. induction cs as [| c cs IH]; intros hub H; [done |].
  simpl. by apply IH, perform_consistent.
Qed.

Lemma init_hub_consistent (now : datetime.t) :
  thermostats_consistent (state (SmartHomeHub.init now)).
Proof. apply map_Forall_empty. Qed.

(** ** The rules raise nothing but [AttributeError] *)

Lemma never_bind {S A B} (e : exn) (m : M S A) (k : A -> M S B) :
  never_raises e m -> (forall a, never_raises e (k a)) -> never_raises e (bind m k).
Proof.
  intros Hm Hk s. unfold bind.
  destruct (result (m s)) as [a | e'] eqn:Hr; cbn [result].
  - apply Hk.
  - intros [= ->]. by apply (Hm s).
Qed.

Lemma never_on {A} (e : exn) (ref : string) (m : M Device.t A) :
  e <> AttributeError -> never_raises e m -> never_raises e (SmartHomeHub.on ref m).
Proof.
  intros He Hm s. unfold SmartHomeHub.on.
  destruct (SmartHomeHub.devices s !! ref) as [d |]; cbn [result].
  - apply Hm.
  - intros [= <-]. done.
Qed.

Lemma never_as_thermostat {A} (e : exn) (m : M SmartThermostat.t A) :
  e <> AttributeError -> never_raises e m -> never_raises e (Device.as_thermostat m).
Proof.
  intros He Hm [l | th | k]; cbn [Device.as_thermostat result]; [| apply Hm |];
    intros [= <-]; done.
Qed.

Lemma never_as_lock {A} (e : exn) (m : M SmartDoorLock.t A) :
  e <> AttributeError -> never_raises e m -> never_raises e (Device.as_lock m).
Proof.
  intros He Hm [l | th | k]; cbn [Device.as_lock result]; [| | apply Hm];
    intros [= <-]; done.
Qed.

Lemma never_Done {S A} (e : exn) (m : M S A) :
  (forall s, exists a, result (m s) = Done a) -> never_raises e m.
Proof. intros H s. destruct (H s) as [a ->]. done. Qed.

Lemma never_device_turn_on (e : exn) : never_raises e Device.turn_on.
Proof. apply never_Done. intros d. exists tt. apply device_turn_on_done. Qed.

Lemma never_device_turn_off (e : exn) : never_raises e Device.turn_off.
Proof. apply never_Done. intros d. exists tt. apply device_turn_off_done. Qed.

Lemma never_update_mode (e : exn) : never_raises e SmartThermostat._update_mode.
Proof. apply never_Done. intros th. exists tt. apply update_mode_run. Qed.

Lemma never_lock (e : exn) : never_raises e SmartDoorLock.lock.
Proof. apply never_Done. intros k. exists tt. by rewrite lock_run. Qed.

Lemma never_plus_half (e : exn) (c : Number.t) :
  e <> OverflowError -> never_raises e (SmartHomeHub.call (Number.plus_half c)).
Proof. intros He hub H. by apply He, (plus_half_raises c). Qed.

Lemma never_minus_half (e : exn) (c : Number.t) :
  e <> OverflowError -> never_raises e (SmartHomeHub.call (Number.minus_half c)).
Proof. intros He hub H. by apply He, (minus_half_raises c). Qed.

Ltac never_step :=
  match goal with
  | |- never_raises _ (bind _ _) => apply never_bind; [| intros ?]
  | |- never_raises _ (SmartHomeHub.on _ _) => apply never_on; [done |]
  | |- never_raises _ (Device.as_thermostat _) => apply never_as_thermostat; [done |]
  | |- never_raises _ (Device.as_lock _) => apply never_as_lock; [done |]
  | |- never_raises _ Device.turn_on => apply never_device_turn_on
  | |- never_raises _ Device.turn_off => apply never_device_turn_off
  | |- never_raises _ SmartThermostat._update_mode => apply never_update_mode
  | |- never_raises _ SmartDoorLock.lock => apply never_lock
  | |- never_raises _ (SmartHomeHub.call (Number.plus_half _)) =>
      apply never_plus_half; done
  | |- never_raises _ (SmartHomeHub.call (Number.minus_half _)) =>
      apply never_minus_half; done
  | |- never_raises _ (match ?x with _ => _ end) => destruct x
  | |- never_raises _ _ => by intros ?
  end.

Lemma never_ValueError_run_automation_rules :
  never_raises ValueError SmartHomeHub.run_automation_rules.
Proof.
  unfold SmartHomeHub.run_automation_rules, SmartHomeHub.rule_1, SmartHomeHub.rule_2,
    SmartHomeHub.rule_3, SmartHomeHub.rule_4, SmartHomeHub.simulate_temperature,
    SmartHomeHub.get_device, Device.get_is_on, Device.get_is_locked, Device.get_mode,
    Device.get_current_temp, Device.get_target_temp, Device.get_name,
    Device.set_current_temp, Device.lock, Device._update_mode.
  repeat never_step.
Qed.

(** ** Moving the clock *)

Lemma replace_valid (now : datetime.t) (hour minute : Z) :
  0 <= hour <= 23 -> 0 <= minute <= 59 ->
  datetime.replace now (Some hour) (Some minute) (Some 0) (Some 0) =
  Done (datetime.mk (datetime.ordinal now) hour minute 0 0).
Proof.
  intros Hh Hm. unfold datetime.replace, datetime.in_range.
  destruct (Z.leb_spec (- 2 ^ 31) hour), (Z.leb_spec hour (2 ^ 31 - 1)),
           (Z.leb_spec (- 2 ^ 31) minute), (Z.leb_spec minute (2 ^ 31 - 1)); try lia.
  destruct (Z.leb_spec 0 hour), (Z.leb_spec hour 23),
           (Z.leb_spec 0 minute), (Z.leb_spec minute 59); (reflexivity || lia).
Qed.

Lemma replace_invalid (now : datetime.t) (hour minute : Z) :
  - 2 ^ 31 <= hour < 2 ^ 31 -> - 2 ^ 31 <= minute < 2 ^ 31 ->
  ~ (0 <= hour <= 23 /\ 0 <= minute <= 59) ->
  datetime.replace now (Some hour) (Some minute) (Some 0) (Some 0) = Raised ValueError.
Proof.
  intros Hh Hm H. unfold datetime.replace, datetime.in_range.
  destruct (Z.leb_spec (- 2 ^ 31) hour), (Z.leb_spec hour (2 ^ 31 - 1)),
           (Z.leb_spec (- 2 ^ 31) minute), (Z.leb_spec minute (2 ^ 31 - 1)); try lia.
  destruct (Z.leb_spec 0 hour), (Z.leb_spec hour 23),
           (Z.leb_spec 0 minute), (Z.leb_spec minute 59); (reflexivity || lia).
Qed.

Lemma replace_overflow (now : datetime.t) (hour minute : Z) :
  ~ (- 2 ^ 31 <= hour < 2 ^ 31 /\ - 2 ^ 31 <= minute < 2 ^ 31) ->
  datetime.replace now (Some hour) (Some minute) (Some 0) (Some 0) = Raised OverflowError.
Proof.
  intros H. unfold datetime.replace, datetime.in_range.
  destruct (Z.leb_spec (- 2 ^ 31) hour), (Z.leb_spec hour (2 ^ 31 - 1)),
           (Z.leb_spec (- 2 ^ 31) minute), (Z.leb_spec minute (2 ^ 31 - 1));
    (reflexivity || lia).
Qed.

Lemma try_except_other {S} (m h : M S unit) (e : exn) (s : S) :
  result (m s) <> Raised e -> try_except m e h s = m s.
Proof.
  intros H. unfold try_except.
  destruct (result (m s)) as [[] | e'] eqn:Hr; [done |].
  by destruct e, e'.
Qed.

Lemma set_simulated_time_attr_run (d : datetime.t) (hub : SmartHomeHub.t) :
  SmartHomeHub.set_simulated_time_attr d hub =
  Run (Done tt) (SmartHomeHub.mk (SmartHomeHub.devices hub) d) [].
Proof. reflexivity. Qed.

Lemma set_simulated_time_invalid (now : datetime.t) (hour minute : Z) (hub : SmartHomeHub.t) :
  - 2 ^ 31 <= hour < 2 ^ 31 -> - 2 ^ 31 <= minute < 2 ^ 31 ->
  ~ (0 <= hour <= 23 /\ 0 <= minute <= 59) ->
  SmartHomeHub.set_simulated_time now hour minute hub = Run (Done tt) hub [InvalidTime].
Proof.
  intros Hh Hm H. unfold SmartHomeHub.set_simulated_time, try_except.
  rewrite replace_invalid by done.
  by rewrite (bind_Raised _ _ _ _ _ _ (call_run _ _)).
Qed.

(** An hour or minute that does not fit a C int: [replace] raises
    [OverflowError], which [except ValueError] does not catch. *)
Lemma set_simulated_time_overflow (now : datetime.t) (hour minute : Z) (hub : SmartHomeHub.t) :
  ~ (- 2 ^ 31 <= hour < 2 ^ 31 /\ - 2 ^ 31 <= minute < 2 ^ 31) ->
  SmartHomeHub.set_simulated_time now hour minute hub = Run (Raised OverflowError) hub [].
Proof.
  intros H. unfold SmartHomeHub.set_simulated_time, try_except.
  rewrite replace_overflow by done.
  by rewrite (bind_Raised _ _ _ _ _ _ (call_run _ _)).
Qed.

(** Whenever the call does not set the clock, the hub is left as it was. *)
Lemma set_simulated_time_rejected (now : datetime.t) (hour minute : Z) (hub : SmartHomeHub.t) :
  ~ (0 <= hour <= 23 /\ 0 <= minute <= 59) ->
  state (SmartHomeHub.set_simulated_time now hour minute hub) = hub.
Proof.
  intros H.
  destruct (decide (- 2 ^ 31 <= hour < 2 ^ 31 /\ - 2 ^ 31 <= minute < 2 ^ 31)) as [[Hh Hm] | Hc].
  - by rewrite set_simulated_time_invalid.
  - by rewrite set_simulated_time_overflow.
Qed.

Lemma set_simulated_time_valid (now : datetime.t) (hour minute : Z) (hub : SmartHomeHub.t) :
  0 <= hour <= 23 -> 0 <= minute <= 59 ->
  let hub' := SmartHomeHub.mk (SmartHomeHub.devices hub)
                (datetime.mk (datetime.ordinal now) hour minute 0 0) in
  SmartHomeHub.set_simulated_time now hour minute hub =
  Run (result (SmartHomeHub.run_automation_rules hub'))
      (state (SmartHomeHub.run_automation_rules hub'))
      (TimeSet hour minute :: printed (SmartHomeHub.run_automation_rules hub')).
Proof.
  intros Hh Hm hub'.
  assert (Hbody :
    (new_time <- SmartHomeHub.call
                   (datetime.replace now (Some hour) (Some minute) (Some 0) (Some 0)) ;;
     SmartHomeHub.set_simulated_time_attr new_time ;;
     print (TimeSet (datetime.hour new_time) (datetime.minute new_time)) ;;
     SmartHomeHub.run_automation_rules) hub =
    Run (result (SmartHomeHub.run_automation_rules hub'))
        (state (SmartHomeHub.run_automation_rules hub'))
        (TimeSet hour minute :: printed (SmartHomeHub.run_automation_rules hub'))).
  { rewrite replace_valid by done.
    rewrite (bind_Done _ _ _ _ _ _ (call_run _ _)).
    rewrite (bind_Done _ _ _ _ _ _ (set_simulated_time_attr_run _ _)).
    rewrite (bind_Done _ _ _ _ _ _ (print_run _ _)).
    reflexivity. }
  unfold SmartHomeHub.set_simulated_time.
  rewrite try_except_other; [exact Hbody |].
  rewrite Hbody. apply never_ValueError_run_automation_rules.
Qed.

Lemma advance_time_overflow (minutes : Z) (hub : SmartHomeHub.t) (e : exn) :
  datetime.add_minutes (SmartHomeHub.simulated_time hub) minutes = Raised e ->
  SmartHomeHub.advance_time minutes hub = Run (Raised e) hub [].
Proof.
  intros H. unfold SmartHomeHub.advance_time.
  rewrite (bind_Done _ _ _ _ _ _ (get_run _)).
  cbn [result state printed]. rewrite H.
  by rewrite (bind_Raised _ _ _ _ _ _ (call_run _ _)).
Qed.

Lemma advance_time_done (minutes : Z) (hub : SmartHomeHub.t) (d : datetime.t) :
  datetime.add_minutes (SmartHomeHub.simulated_time hub) minutes = Done d ->
  let hub' := SmartHomeHub.mk (SmartHomeHub.devices hub) d in
  SmartHomeHub.advance_time minutes hub =
  Run (result (SmartHomeHub.run_automation_rules hub'))
      (state (SmartHomeHub.run_automation_rules hub'))
      (TimeAdvanced minutes (datetime.hour d) (datetime.minute d)
         :: printed (SmartHomeHub.run_automation_rules hub')).
Proof.
  intros H hub'. unfold SmartHomeHub.advance_time.
  rewrite (bind_Done _ _ _ _ _ _ (get_run _)).
  cbn [result state printed]. rewrite H.
  rewrite (bind_Done _ _ _ _ _ _ (call_run _ _)).
  rewrite (bind_Done _ _ _ _ _ _ (set_simulated_time_attr_run _ _)).
  rewrite (bind_Done _ _ _ _ _ _ (print_run _ _)).
  reflexivity.
Qed.

(** ** What one cycle does to each of the four named devices *)

Lemma cycle_living_room_light (hub : SmartHomeHub.t) (d : Device.t) :
  SmartHomeHub.devices hub !! "living room light" = Some d ->
  SmartHomeHub.devices (state (SmartHomeHub.run_automation_rules hub)) !! "living room light" =
  Some (if ((current_hour hub) =? 23) && ((current_minute hub) =? 0) && Device.is_on d then state (Device.turn_off d) else d).
Proof.
  intros E. destruct (run_automation_rules_run hub) as [-> _]. fold (current_hour hub) (current_minute hub).
  assert (H1 : SmartHomeHub.devices (state (SmartHomeHub.rule_1 (current_hour hub) (current_minute hub) hub))
                 !! "living room light" =
    Some (if ((current_hour hub) =? 23) && ((current_minute hub) =? 0) && Device.is_on d then state (Device.turn_off d) else d)).
  { destruct (rule_1_run (current_hour hub) (current_minute hub) hub) as [_ ->]. rewrite E.
    destruct (_ && _); [apply lookup_insert_eq | done]. }
  destruct (result _); rewrite ?rule_4_frame, rule_3_frame, rule_2_frame by done; exact H1.
Qed.

Lemma cycle_front_door_light (hub : SmartHomeHub.t) (d : Device.t) :
  SmartHomeHub.devices hub !! "front door light" = Some d ->
  SmartHomeHub.devices (state (SmartHomeHub.run_automation_rules hub)) !! "front door light" =
  Some (if ((current_hour hub) =? 18) && ((current_minute hub) =? 0) && negb (Device.is_on d)
        then state (Device.turn_on d) else d).
Proof.
  intros E. destruct (run_automation_rules_run hub) as [-> _]. fold (current_hour hub) (current_minute hub).
  set (h1 := state (SmartHomeHub.rule_1 (current_hour hub) (current_minute hub) hub)).
  assert (E1 : SmartHomeHub.devices h1 !! "front door light" = Some d)
    by (subst h1; by rewrite rule_1_frame).
  assert (H2 : SmartHomeHub.devices (state (SmartHomeHub.rule_2 (current_hour hub) (current_minute hub) h1))
                 !! "front door light" =
    Some (if ((current_hour hub) =? 18) && ((current_minute hub) =? 0) && negb (Device.is_on d)
          then state (Device.turn_on d) else d)).
  { destruct (rule_2_run (current_hour hub) (current_minute hub) h1) as [_ ->]. rewrite E1.
    destruct (_ && _); [apply lookup_insert_eq | done]. }
  destruct (result _); rewrite ?rule_4_frame, rule_3_frame by done; exact H2.
Qed.

Lemma cycle_front_door_lock (hub : SmartHomeHub.t) (k : SmartDoorLock.t) :
  SmartHomeHub.devices hub !! "front door lock" = Some (Device.DoorLock k) ->
  SmartHomeHub.devices (state (SmartHomeHub.run_automation_rules hub)) !! "front door lock" =
  Some (Device.DoorLock
          (if ((current_hour hub) =? 22) && ((current_minute hub) =? 0) && negb (SmartDoorLock.is_locked k)
           then SmartDoorLock.mk (SmartDoorLock.base k) true else k)).
Proof.
  intros E. destruct (run_automation_rules_run hub) as [-> _]. fold (current_hour hub) (current_minute hub).
  set (h2 := state (SmartHomeHub.rule_2 (current_hour hub) (current_minute hub) _)).
  assert (E2 : SmartHomeHub.devices h2 !! "front door lock" = Some (Device.DoorLock k))
    by (subst h2; by rewrite rule_2_frame, rule_1_frame).
  assert (H3 : SmartHomeHub.devices (state (SmartHomeHub.rule_3 (current_hour hub) (current_minute hub) h2))
                 !! "front door lock" =
    Some (Device.DoorLock
            (if ((current_hour hub) =? 22) && ((current_minute hub) =? 0) && negb (SmartDoorLock.is_locked k)
             then SmartDoorLock.mk (SmartDoorLock.base k) true else k))).
  { rewrite rule_3_state, E2.
    destruct (_ && _); [apply lookup_insert_eq | done]. }
  destruct (result _); rewrite ?rule_4_frame by done; exact H3.
Qed.

Lemma cycle_keeps_lock (hub : SmartHomeHub.t) : front_door_lock_is_lock hub ->
  front_door_lock_is_lock (state (SmartHomeHub.run_automation_rules hub)).
Proof.
  intros H d. destruct (SmartHomeHub.devices hub !! "front door lock") as [d0 |] eqn:E.
  - destruct (H d0 E) as [k ->].
    rewrite (cycle_front_door_lock hub k E). intros [= <-]. by eexists.
  - destruct (run_automation_rules_run hub) as [-> _]. fold (current_hour hub) (current_minute hub).
    set (h2 := state (SmartHomeHub.rule_2 (current_hour hub) (current_minute hub) _)).
    assert (E2 : SmartHomeHub.devices h2 !! "front door lock" = None)
      by (subst h2; by rewrite rule_2_frame, rule_1_frame).
    assert (H3 : SmartHomeHub.devices (state (SmartHomeHub.rule_3 (current_hour hub) (current_minute hub) h2))
                   !! "front door lock" = None)
      by (by rewrite rule_3_state, E2).
    destruct (result _); rewrite ?rule_4_frame by done; by rewrite H3.
Qed.

Lemma cycle_keeps_lock_rule (hub : SmartHomeHub.t) :
  lock_rule_runs hub -> lock_rule_runs (state (SmartHomeHub.run_automation_rules hub)).
Proof.
  intros [H | H]; [left | right].
  - unfold clock_at. by rewrite run_automation_rules_time.
  - by apply cycle_keeps_lock.
Qed.

Lemma cycle_main_thermostat (hub : SmartHomeHub.t) (th : SmartThermostat.t) :
  SmartHomeHub.devices hub !! "main thermostat" = Some (Device.Thermostat th) ->
  lock_rule_runs hub ->
  result (SmartHomeHub.run_automation_rules hub) =
    (if SmartThermostat.is_on th then
       match thermostat_drift th with
       | Done _ => Done tt
       | Raised e => Raised e
       end
     else Done tt) /\
  SmartHomeHub.devices (state (SmartHomeHub.run_automation_rules hub)) !! "main thermostat" =
  Some (Device.Thermostat (if SmartThermostat.is_on th then drift_or_stay th else th)).
Proof.
  intros E Hlock. destruct (run_automation_rules_run hub) as [-> ->].
  fold (current_hour hub) (current_minute hub).
  set (h2 := state (SmartHomeHub.rule_2 (current_hour hub) (current_minute hub) _)).
  assert (Hl2 : ~ (current_hour hub = 22 /\ current_minute hub = 0) \/
                front_door_lock_is_lock h2).
  { destruct Hlock as [H | H]; [by left | right].
    intros d. subst h2. rewrite rule_2_frame, rule_1_frame by done. apply H. }
  rewrite (rule_3_done (current_hour hub) (current_minute hub) h2 Hl2).
  assert (E3 : SmartHomeHub.devices
                 (state (SmartHomeHub.rule_3 (current_hour hub) (current_minute hub) h2))
                 !! "main thermostat" = Some (Device.Thermostat th)).
  { subst h2. by rewrite rule_3_frame, rule_2_frame, rule_1_frame. }
  destruct (rule_4_thermostat _ _ E3) as [-> ->]. split; [done |].
  destruct (SmartThermostat.is_on th); [apply lookup_insert_eq | done].
Qed.

(** ** The drift of the temperature *)

Lemma dead_band_cases (on : bool) (c g : Number.t) :
  (on = false -> dead_band on c g = Off) /\
  (on = true -> Number.lt c (Number.minus_one g) = true -> dead_band on c g = Heating) /\
  (on = true -> Number.lt c (Number.minus_one g) = false ->
     Number.gt c (Number.plus_one g) = true -> dead_band on c g = Cooling) /\
  (on = true -> Number.lt c (Number.minus_one g) = false ->
     Number.gt c (Number.plus_one g) = false -> dead_band on c g = Idle).
Proof.
  unfold dead_band. repeat split; intros ->; try done.
  - by intros ->.
  - by intros -> ->.
  - by intros -> ->.
Qed.

(** The dead band is computed in binary64: at 16.1 with target 15.1
    a thermostat that is turned on is Idle, because [15.1 + 1] rounds to
    the float 16.1, although the value of the float 16.1 is above the
    value of the float 15.1 plus one. *)
Example dead_band_is_rounded :
  let c := Number.Float (Number.float_of_decimal 161 1) in
  let g := Number.Float (Number.float_of_decimal 151 1) in
  SmartThermostat.mode (state (SmartThermostat.turn_on (SmartThermostat.init "T" c g))) = Idle /\
  exists vc vg, Number.value c = Some vc /\ Number.value g = Some vg /\ (vg + 1 < vc)%Q.
Proof.
  split; [vm_compute; reflexivity |].
  eexists. eexists. split; [reflexivity |]. split; [reflexivity |].
  vm_compute. reflexivity.
Qed.

(** Between ints the dead band is that of integer arithmetic. *)
Lemma dead_band_Int (a b : Z) :
  dead_band true (Number.Int a) (Number.Int b) =
  if a <? b - 1 then Heating else if a >? b + 1 then Cooling else Idle.
Proof. unfold dead_band. cbn [Number.minus_one Number.plus_one]. by rewrite lt_Int, gt_Int. Qed.

Lemma drift_or_stay_base (th : SmartThermostat.t) :
  SmartThermostat.base (drift_or_stay th) = SmartThermostat.base th.
Proof. unfold drift_or_stay, thermostat_drift. by destruct (drifted_temp th). Qed.

Lemma drift_or_stay_target (th : SmartThermostat.t) :
  SmartThermostat.target_temp (drift_or_stay th) = SmartThermostat.target_temp th.
Proof. unfold drift_or_stay, thermostat_drift. by destruct (drifted_temp th). Qed.

Lemma drift_or_stay_is_on (th : SmartThermostat.t) :
  SmartThermostat.is_on (drift_or_stay th) = SmartThermostat.is_on th.
Proof. unfold SmartThermostat.is_on. by rewrite drift_or_stay_base. Qed.




(** A thermostat that a drift step leaves as it is stays so. *)
Lemma drifts_fixed (n : nat) (th : SmartThermostat.t) :
  drift_or_stay th = th -> drifts n th = th.
Proof.
  intros H. induction n as [| n IH]; [done |].
  cbn [drifts]. by rewrite H.
Qed.

Lemma cycles_main_thermostat (n : nat) (hub : SmartHomeHub.t) (th : SmartThermostat.t) :
  SmartHomeHub.devices hub !! "main thermostat" = Some (Device.Thermostat th) ->
  SmartThermostat.is_on th = true ->
  lock_rule_runs hub ->
  SmartHomeHub.devices (cycles n hub) !! "main thermostat" =
  Some (Device.Thermostat (drifts n th)).
Proof.
  revert hub th. induction n as [| n IH]; intros hub th E Hon Hlock; [done |].
  cbn [cycles drifts]. apply IH.
  - destruct (cycle_main_thermostat hub th E Hlock) as [_ ->]. by rewrite Hon.
  - by rewrite drift_or_stay_is_on.
  - by apply cycle_keeps_lock_rule.
Qed.

(** ** Temperatures in half degrees *)

Lemma forall_upto_spec (n : nat) (P : Z -> bool) :
  forall_upto n P = true -> forall k, - Z.of_nat n <= k <= Z.of_nat n -> P k = true.
Proof.
  induction n as [| n IH]; intros H k Hk.
  - cbn in H. by replace k with 0 by lia.
  - cbn [forall_upto] in H. apply andb_prop in H as [H H3]. apply andb_prop in H as [H1 H2].
    destruct (decide (k = Z.of_nat (S n))) as [-> | ?]; [done |].
    destruct (decide (k = - Z.of_nat (S n))) as [-> | ?]; [done |].
    apply IH; [done | lia].
Qed.

Lemma spec_float_eqb_eq (x y : spec_float) : spec_float_eqb x y = true -> x = y.
Proof.
  destruct x as [a | a | | a m e], y as [b | b | | b n f]; cbn; try done.
  - by intros ->%Bool.eqb_prop.
  - by intros ->%Bool.eqb_prop.
  - intros [[->%Bool.eqb_prop ->%Pos.eqb_eq]%andb_prop ->%Z.eqb_eq]%andb_prop. done.
Qed.

Lemma half_degrees_checked : forall_upto 4096 half_degrees_exact = true.
Proof. vm_compute. reflexivity. Qed.

Lemma half_degrees_facts (k : Z) :
  -4096 <= k <= 4096 ->
  SFadd Number.prec Number.emax (half_degrees k) Number.half = half_degrees (k + 1) /\
  SFsub Number.prec Number.emax (half_degrees k) Number.half = half_degrees (k - 1) /\
  binary_normalize Number.prec Number.emax k 0 false = half_degrees (2 * k) /\
  exists v, Number.float_value (half_degrees k) = Some v /\ (v == k # 2)%Q.
Proof.
  intros Hk.
  pose proof (forall_upto_spec 4096 _ half_degrees_checked k) as H.
  unfold half_degrees_exact in H.
  specialize (H ltac:(change (Z.of_nat 4096) with 4096; lia)).
  apply andb_prop in H as [H H4]. apply andb_prop in H as [H H3].
  apply andb_prop in H as [H1 H2].
  split; [by apply spec_float_eqb_eq |]. split; [by apply spec_float_eqb_eq |].
  split; [by apply spec_float_eqb_eq |].
  destruct (Number.float_value (half_degrees k)) as [v |]; [| done].
  exists v. split; [done |]. by apply Qeq_bool_iff.
Qed.

Lemma half_degrees_compare (g k : Z) :
  -4096 <= k <= 4096 ->
  Number.compare_int_float g (half_degrees k) = Some (2 * g ?= k).
Proof.
  intros Hk. destruct (half_degrees_facts k Hk) as (_ & _ & _ & v & Hv & Hq).
  unfold Number.compare_int_float.
  assert (Hc : (inject_Z g ?= v)%Q = (2 * g ?= k)).
  { rewrite Hq. unfold Qcompare; cbn. f_equal; lia. }
  destruct (half_degrees k) as [s | s | | s m e]; try done.
  - cbn in Hv |- *. injection Hv as <-. by rewrite <- Hc.
  - cbn [Number.float_value] in Hv |- *. injection Hv as <-. by rewrite <- Hc.
Qed.


Lemma is_half_degrees_compare (x : Number.t) (k g : Z) :
  is_half_degrees x k -> Number.compare x (Number.Int g) = Some (k ?= 2 * g).
Proof.
  intros [Hk Hx]. destruct x as [z | f]; cbn.
  - subst k. f_equal.
    destruct (Z.compare_spec z g), (Z.compare_spec (2 * z) (2 * g)); (done || lia).
  - subst f. rewrite half_degrees_compare by lia. f_equal. symmetry. apply Z.compare_antisym.
Qed.

Lemma is_half_degrees_lt (x : Number.t) (k g : Z) :
  is_half_degrees x k -> Number.lt x (Number.Int g) = (k <? 2 * g).
Proof.
  intros H. unfold Number.lt, Z.ltb. rewrite (is_half_degrees_compare x k g H).
  by destruct (k ?= 2 * g).
Qed.

Lemma is_half_degrees_gt (x : Number.t) (k g : Z) :
  is_half_degrees x k -> Number.gt x (Number.Int g) = (k >? 2 * g).
Proof.
  intros H. unfold Number.gt, Z.gtb. rewrite (is_half_degrees_compare x k g H).
  by destruct (k ?= 2 * g).
Qed.




(** The dead band between a temperature in half degrees and an int target. *)
Lemma dead_band_half_degrees (x : Number.t) (k g : Z) :
  is_half_degrees x k ->
  dead_band true x (Number.Int g) =
  if k <? 2 * g - 2 then Heating else if k >? 2 * g + 2 then Cooling else Idle.
Proof.
  intros H. unfold dead_band. cbn [Number.minus_one Number.plus_one].
  rewrite (is_half_degrees_lt x k (g - 1) H), (is_half_degrees_gt x k (g + 1) H).
  by replace (2 * (g - 1)) with (2 * g - 2) by lia;
     replace (2 * (g + 1)) with (2 * g + 2) by lia.
Qed.





Lemma clock_at_true (hub : SmartHomeHub.t) (hh mm : Z) :
  clock_at hub hh mm ->
  (current_hour hub =? hh) && (current_minute hub =? mm) = true.
Proof.
  intros [H1 H2]. unfold current_hour, current_minute.
  by rewrite H1, H2, !Z.eqb_refl.
Qed.

Lemma clock_at_false (hub : SmartHomeHub.t) (hh mm : Z) :
  ~ clock_at hub hh mm ->
  (current_hour hub =? hh) && (current_minute hub =? mm) = false.
Proof.
  intros H. unfold clock_at in H. unfold current_hour, current_minute.
  destruct (Z.eqb_spec (datetime.hour (SmartHomeHub.simulated_time hub)) hh),
           (Z.eqb_spec (datetime.minute (SmartHomeHub.simulated_time hub)) mm); tauto.
Qed.

(** * The claims *)

(** C1, as stated, fails: the light that [main] registers as "Living
    Room Light" is constructed with the default brightness 50 and is
    off, so a light reachable by construction alone has a brightness
    above 0 while [is_on] is false. *)
Lemma C1_constructed_light_not_coupled :
  SmartHomeHub.devices
    (perform_all [add_device_ (NewLight "Living Room Light" 50)]
                 (state (SmartHomeHub.init wall_clock)))
    !! "living room light"
  = Some (Device.Light (SmartLight.init "Living Room Light" 50)) /\
  ~ coupled (SmartLight.init "Living Room Light" 50).
Proof.
  split; [by vm_compute |].
  intros [_ H]. specialize (H ltac:(done)). discriminate H.
Qed.

(** C1, amended: immediately after a successful [set_brightness(level)]
    (with [0 <= level <= 100]) on a light in any state, brightness 0
    implies the light is off and brightness above 0 implies it is on. *)
Theorem C1_set_brightness_couples (l : SmartLight.t) (level : Z) :
  0 <= level <= 100 ->
  coupled (state (SmartLight.set_brightness level l)).
Proof.
  intros H. destruct (set_brightness_valid l level H) as [-> _].
  unfold coupled; cbn.
  split; intros Hb; [apply Z.ltb_ge | apply Z.ltb_lt]; lia.
Qed.

Lemma C1_set_brightness_couples_witness :
  coupled (state (SmartLight.set_brightness 0
                    (with_power (SmartLight.init "Living Room Light" 50) true))).
Proof. apply C1_set_brightness_couples. lia. Defined.

(** C2: in every hub reachable from [SmartHomeHub()] by any sequence of
    calls (registering constructed devices, method calls on registered
    devices, [advance_time], [set_simulated_time], automation cycles,
    also when a call raises), every registered thermostat has the mode
    that the dead-band rule gives for its [is_on], [current_temp] and
    [target_temp]: Off when off; when on, Heating when
    [current < target - 1], else Cooling when [current > target + 1],
    else Idle, with [target - 1], [target + 1] and the comparisons as
    Python computes them (exactly between ints, in binary64 for a
    float).  Between ints these are the comparisons of integer
    arithmetic, and for a temperature [k / 2] between -2048 and 2048
    degrees, int or float, against an int target they are the exact
    ones.  [turn_off()] leaves the thermostat off with mode Off
    whatever the temperatures are. *)
Theorem C2_mode_is_dead_band
    (now : datetime.t) (cs : list command) (key : string) (th : SmartThermostat.t) :
  SmartHomeHub.devices (perform_all cs (state (SmartHomeHub.init now))) !! key
    = Some (Device.Thermostat th) ->
  let on := SmartThermostat.is_on th in
  let c := SmartThermostat.current_temp th in
  let g := SmartThermostat.target_temp th in
  SmartThermostat.mode th = dead_band on c g /\
  (on = false -> SmartThermostat.mode th = Off) /\
  (on = true -> Number.lt c (Number.minus_one g) = true ->
     SmartThermostat.mode th = Heating) /\
  (on = true -> Number.lt c (Number.minus_one g) = false ->
     Number.gt c (Number.plus_one g) = true -> SmartThermostat.mode th = Cooling) /\
  (on = true -> Number.lt c (Number.minus_one g) = false ->
     Number.gt c (Number.plus_one g) = false -> SmartThermostat.mode th = Idle) /\
  (forall a b : Z, c = Number.Int a -> g = Number.Int b -> on = true ->
     (a < b - 1 -> SmartThermostat.mode th = Heating) /\
     (b + 1 < a -> SmartThermostat.mode th = Cooling) /\
     (b - 1 <= a <= b + 1 -> SmartThermostat.mode th = Idle)) /\
  (forall k b : Z, is_half_degrees c k -> g = Number.Int b -> on = true ->
     (k < 2 * b - 2 -> SmartThermostat.mode th = Heating) /\
     (2 * b + 2 < k -> SmartThermostat.mode th = Cooling) /\
     (2 * b - 2 <= k <= 2 * b + 2 -> SmartThermostat.mode th = Idle)) /\
  SmartThermostat.mode (state (SmartThermostat.turn_off th)) = Off /\
  SmartThermostat.is_on (state (SmartThermostat.turn_off th)) = false.
Proof.
  intros E on c g.
  assert (H : mode_consistent th).
  { pose proof (perform_all_consistent cs _ (init_hub_consistent now)) as Hall.
    exact (map_Forall_lookup_1 _ _ _ _ Hall E). }
  unfold mode_consistent in H. fold on c g in H.
  split; [exact H |]. rewrite H.
  destruct (dead_band_cases on c g) as (H1 & H2 & H3 & H4).
  split; [exact H1 |]. split; [exact H2 |]. split; [exact H3 |]. split; [exact H4 |].
  split; [| split].
  - intros a b -> -> ->. rewrite dead_band_Int.
    destruct (Z.ltb_spec a (b - 1)), (Z.gtb_spec a (b + 1));
      repeat split; intros; (done || lia).
  - intros k b Hk -> ->. rewrite (dead_band_half_degrees c k b Hk).
    destruct (Z.ltb_spec k (2 * b - 2)), (Z.gtb_spec k (2 * b + 2));
      repeat split; intros; (done || lia).
  - by destruct (thermostat_turn_off_run th) as [-> _].
Qed.

Lemma C2_mode_is_dead_band_witness :
  SmartThermostat.mode (drift_or_stay main_thermostat_on)
  = dead_band true (SmartThermostat.current_temp (drift_or_stay main_thermostat_on))
                   (Number.Int 22).
Proof.
  refine (proj1 (C2_mode_is_dead_band wall_clock
    (main_devices ++ [control_ "Main Thermostat" turn_on_; run_automation_rules_])
    "main thermostat" (drift_or_stay main_thermostat_on) _)).
  vm_compute. reflexivity.
Defined.

(** C3: [set_brightness(level)] with [level] outside [0,100] prints
    the invalid-level message and leaves the light as it was; with
    [level] inside [0,100] it stores [level] as the brightness, keeps
    the name, turns the light on when [level > 0] and it was off, turns
    it off when [level = 0] and it was on, and leaves the power flag
    alone otherwise. *)
Theorem C3_set_brightness (l : SmartLight.t) (level : Z) :
  let r := SmartLight.set_brightness level l in
  (~ (0 <= level <= 100) ->
     r = Run (Done tt) l [InvalidBrightness (SmartLight.name l)]) /\
  (0 <= level <= 100 ->
     result r = Done tt /\
     SmartLight.brightness (state r) = level /\
     SmartLight.name (state r) = SmartLight.name l /\
     (0 < level -> SmartLight.is_on l = false ->
        SmartLight.is_on (state r) = true /\
        printed r = [TurnedOn (SmartLight.name l); BrightnessSet (SmartLight.name l) level]) /\
     (level = 0 -> SmartLight.is_on l = true ->
        SmartLight.is_on (state r) = false /\
        printed r = [TurnedOff (SmartLight.name l); BrightnessSet (SmartLight.name l) level]) /\
     (~ (0 < level /\ SmartLight.is_on l = false) ->
      ~ (level = 0 /\ SmartLight.is_on l = true) ->
        SmartLight.is_on (state r) = SmartLight.is_on l /\
        printed r = [BrightnessSet (SmartLight.name l) level])).
Proof.
  intros r. split.
  - apply set_brightness_invalid.
  - intros H. subst r. unfold SmartLight.set_brightness.
    destruct (Z.leb_spec 0 level); [| lia].
    destruct (Z.leb_spec level 100); [| lia].
    destruct l as [[n on] b]. cbn.
    destruct (Z.ltb_spec 0 level), (Z.eqb_spec level 0), on; cbn;
      repeat split; intros; try done; try lia; tauto.
Qed.

Lemma C3_set_brightness_witness :
  SmartLight.is_on (state (SmartLight.set_brightness 40 (SmartLight.init "Front Door Light" 0)))
    = true /\
  SmartLight.set_brightness 101 (SmartLight.init "Front Door Light" 0)
    = Run (Done tt) (SmartLight.init "Front Door Light" 0) [InvalidBrightness "Front Door Light"].
Proof.
  split.
  - apply (C3_set_brightness (SmartLight.init "Front Door Light" 0) 40); [lia | lia | reflexivity].
  - apply (C3_set_brightness (SmartLight.init "Front Door Light" 0) 101). lia.
Defined.




(** The three time-triggered rules, seen from the device they act on. *)

Lemma living_room_light_cycle (hub : SmartHomeHub.t) (l : SmartLight.t) :
  SmartHomeHub.devices hub !! "living room light" = Some (Device.Light l) ->
  SmartLight.is_on l = true ->
  (clock_at hub 23 0 ->
     SmartHomeHub.devices (state (SmartHomeHub.run_automation_rules hub))
       !! "living room light" = Some (Device.Light (with_power l false))) /\
  (~ clock_at hub 23 0 ->
     SmartHomeHub.devices (state (SmartHomeHub.run_automation_rules hub))
       !! "living room light" = Some (Device.Light l)).
Proof.
  intros E Hon. rewrite (cycle_living_room_light hub _ E). split; intros H.
  - rewrite (clock_at_true _ _ _ H). cbn [andb Device.is_on]. rewrite Hon.
    cbn [Device.turn_off Device.as_light state]. by destruct (light_turn_off l) as [-> _].
  - by rewrite (clock_at_false _ _ _ H).
Qed.

Lemma front_door_light_cycle (hub : SmartHomeHub.t) (l : SmartLight.t) :
  SmartHomeHub.devices hub !! "front door light" = Some (Device.Light l) ->
  SmartLight.is_on l = false ->
  (clock_at hub 18 0 ->
     SmartHomeHub.devices (state (SmartHomeHub.run_automation_rules hub))
       !! "front door light" = Some (Device.Light (with_power l true))) /\
  (~ clock_at hub 18 0 ->
     SmartHomeHub.devices (state (SmartHomeHub.run_automation_rules hub))
       !! "front door light" = Some (Device.Light l)).
Proof.
  intros E Hon. rewrite (cycle_front_door_light hub _ E). split; intros H.
  - rewrite (clock_at_true _ _ _ H). cbn [andb Device.is_on]. rewrite Hon.
    cbn [negb Device.turn_on Device.as_light state]. by destruct (light_turn_on l) as [-> _].
  - by rewrite (clock_at_false _ _ _ H).
Qed.

Lemma front_door_lock_cycle (hub : SmartHomeHub.t) (k : SmartDoorLock.t) :
  SmartHomeHub.devices hub !! "front door lock" = Some (Device.DoorLock k) ->
  SmartDoorLock.is_locked k = false ->
  (clock_at hub 22 0 ->
     SmartHomeHub.devices (state (SmartHomeHub.run_automation_rules hub))
       !! "front door lock" =
     Some (Device.DoorLock (SmartDoorLock.mk (SmartDoorLock.base k) true))) /\
  (~ clock_at hub 22 0 ->
     SmartHomeHub.devices (state (SmartHomeHub.run_automation_rules hub))
       !! "front door lock" = Some (Device.DoorLock k)).
Proof.
  intros E Hl. rewrite (cycle_front_door_lock hub _ E). split; intros H.
  - rewrite (clock_at_true _ _ _ H). by rewrite Hl.
  - by rewrite (clock_at_false _ _ _ H).
Qed.

(** C5: the three time-triggered rules fire on their exact minute and
    on no other.  A cycle evaluated with the clock at 23:00 turns an on
    "Living Room Light" off, and with the clock anywhere else leaves it
    untouched; so [set_simulated_time(23, 0)] turns it off, while
    [set_simulated_time(22, 59)] followed by [set_simulated_time(23, 1)]
    leaves it on, and [advance_time] turns it off exactly when the new
    time is 23:00.  In the same way an off "Front Door Light" is turned
    on at 18:00 only, and an unlocked "Front Door Lock" is locked at
    22:00 only. *)
Theorem C5_rules_fire_on_the_exact_minute (hub : SmartHomeHub.t) :
  (forall l : SmartLight.t,
     SmartHomeHub.devices hub !! "living room light" = Some (Device.Light l) ->
     SmartLight.is_on l = true ->
     (clock_at hub 23 0 ->
        SmartHomeHub.devices (state (SmartHomeHub.run_automation_rules hub))
          !! "living room light" = Some (Device.Light (with_power l false))) /\
     (~ clock_at hub 23 0 ->
        SmartHomeHub.devices (state (SmartHomeHub.run_automation_rules hub))
          !! "living room light" = Some (Device.Light l)) /\
     (forall now,
        SmartHomeHub.devices (state (SmartHomeHub.set_simulated_time now 23 0 hub))
          !! "living room light" = Some (Device.Light (with_power l false))) /\
     (forall now now',
        SmartHomeHub.devices
          (state (SmartHomeHub.set_simulated_time now' 23 1
                    (state (SmartHomeHub.set_simulated_time now 22 59 hub))))
          !! "living room light" = Some (Device.Light l)) /\
     (forall minutes d,
        datetime.add_minutes (SmartHomeHub.simulated_time hub) minutes = Done d ->
        SmartHomeHub.devices (state (SmartHomeHub.advance_time minutes hub))
          !! "living room light" =
        Some (Device.Light (if (datetime.hour d =? 23) && (datetime.minute d =? 0)
                            then with_power l false else l)))) /\
  (forall l : SmartLight.t,
     SmartHomeHub.devices hub !! "front door light" = Some (Device.Light l) ->
     SmartLight.is_on l = false ->
     (clock_at hub 18 0 ->
        SmartHomeHub.devices (state (SmartHomeHub.run_automation_rules hub))
          !! "front door light" = Some (Device.Light (with_power l true))) /\
     (~ clock_at hub 18 0 ->
        SmartHomeHub.devices (state (SmartHomeHub.run_automation_rules hub))
          !! "front door light" = Some (Device.Light l))) /\
  (forall k : SmartDoorLock.t,
     SmartHomeHub.devices hub !! "front door lock" = Some (Device.DoorLock k) ->
     SmartDoorLock.is_locked k = false ->
     (clock_at hub 22 0 ->
        SmartHomeHub.devices (state (SmartHomeHub.run_automation_rules hub))
          !! "front door lock" =
        Some (Device.DoorLock (SmartDoorLock.mk (SmartDoorLock.base k) true))) /\
     (~ clock_at hub 22 0 ->
        SmartHomeHub.devices (state (SmartHomeHub.run_automation_rules hub))
          !! "front door lock" = Some (Device.DoorLock k))).
Proof.
  split; [| split].
  - intros l E Hon.
    destruct (living_room_light_cycle hub l E Hon) as [Hat Hnot].
    split; [exact Hat |]. split; [exact Hnot |]. split; [| split].
    + intros now. rewrite set_simulated_time_valid by lia. rewrite state_Run.
      by apply (proj1 (living_room_light_cycle (SmartHomeHub.mk _ _) l E Hon)).
    + intros now now'.
      rewrite (set_simulated_time_valid now 22 59) by lia. rewrite state_Run.
      set (hub1 := SmartHomeHub.mk _ _).
      assert (E1 : SmartHomeHub.devices (state (SmartHomeHub.run_automation_rules hub1))
                     !! "living room light" = Some (Device.Light l)).
      { apply (proj2 (living_room_light_cycle hub1 l E Hon)). by intros [? _]. }
      rewrite set_simulated_time_valid by lia. rewrite state_Run.
      apply (proj2 (living_room_light_cycle (SmartHomeHub.mk _ _) l E1 Hon)).
      by intros [_ ?].
    + intros minutes d Hd. rewrite (advance_time_done _ _ _ Hd). rewrite state_Run.
      set (hub' := SmartHomeHub.mk _ d).
      destruct (living_room_light_cycle hub' l E Hon) as [Hat' Hnot'].
      destruct (Z.eqb_spec (datetime.hour d) 23), (Z.eqb_spec (datetime.minute d) 0);
        cbn [andb]; [apply Hat' | apply Hnot' ..]; unfold clock_at; cbn; tauto.
  - intros l E Hoff. exact (front_door_light_cycle hub l E Hoff).
  - intros k E Hl. exact (front_door_lock_cycle hub k E Hl).
Qed.

Lemma C5_rules_fire_on_the_exact_minute_witness :
  SmartHomeHub.devices (state (SmartHomeHub.set_simulated_time wall_clock 23 0 evening_hub))
    !! "living room light"
  = Some (Device.Light (SmartLight.mk (SmartDevice.mk "Living Room Light" false) 50)) /\
  SmartHomeHub.devices
    (state (SmartHomeHub.set_simulated_time wall_clock 23 1
              (state (SmartHomeHub.set_simulated_time wall_clock 22 59 evening_hub))))
    !! "living room light"
  = Some (Device.Light (SmartLight.mk (SmartDevice.mk "Living Room Light" true) 50)).
Proof.
  assert (E : SmartHomeHub.devices evening_hub !! "living room light"
              = Some (Device.Light (SmartLight.mk (SmartDevice.mk "Living Room Light" true) 50)))
    by (vm_compute; reflexivity).
  pose proof (proj1 (C5_rules_fire_on_the_exact_minute evening_hub) _ E eq_refl)
    as (_ & _ & Hset & Hskip & _).
  split; [apply Hset | apply Hskip].
Defined.

(** C6, as stated, fails: after [advance_time(1440)] the simulated
    clock is one day ahead of the wall clock, and a successful
    [set_simulated_time(12, 0)] puts it back on the wall clock's date. *)
Lemma C6_date_not_kept :
  0 <= 12 <= 23 /\ 0 <= 0 <= 59 /\
  datetime.ordinal (SmartHomeHub.simulated_time next_day_hub) = 738001 /\
  SmartHomeHub.simulated_time
    (state (SmartHomeHub.set_simulated_time wall_clock 12 0 next_day_hub))
  = datetime.mk 738000 12 0 0 0 /\
  datetime.ordinal
    (SmartHomeHub.simulated_time
       (state (SmartHomeHub.set_simulated_time wall_clock 12 0 next_day_hub)))
  <> datetime.ordinal (SmartHomeHub.simulated_time next_day_hub).
Proof.
  split; [lia |]. split; [lia |]. by vm_compute.
Qed.

(** C6, amended: for hour in [0,23] and minute in [0,59],
    [set_simulated_time(hour, minute)] sets the simulated clock to the
    given hour and minute, with seconds and microseconds zero, on the
    date the wall clock shows at the call ("today"); the date of the
    simulated clock before the call plays no part. *)
Theorem C6_set_time_is_today (hub : SmartHomeHub.t) (now : datetime.t) (hour minute : Z) :
  0 <= hour <= 23 -> 0 <= minute <= 59 ->
  SmartHomeHub.simulated_time (state (SmartHomeHub.set_simulated_time now hour minute hub))
  = datetime.mk (datetime.ordinal now) hour minute 0 0.
Proof.
  intros Hh Hm. rewrite set_simulated_time_valid by done. rewrite state_Run.
  by rewrite run_automation_rules_time.
Qed.

Lemma C6_set_time_is_today_witness :
  SmartHomeHub.simulated_time
    (state (SmartHomeHub.set_simulated_time wall_clock 12 0 next_day_hub))
  = datetime.mk (datetime.ordinal wall_clock) 12 0 0 0.
Proof. apply C6_set_time_is_today; lia. Defined.



(** C8: [lock()] leaves the door locked whatever the state was, and a
    second [lock()] changes nothing and prints the already-locked
    message; symmetrically [unlock()] leaves the door unlocked and a
    second [unlock()] changes nothing and prints the already-unlocked
    message. *)
Theorem C8_lock_unlock_idempotent (k : SmartDoorLock.t) :
  let once := SmartDoorLock.lock k in
  let twice := SmartDoorLock.lock (state once) in
  let once' := SmartDoorLock.unlock k in
  let twice' := SmartDoorLock.unlock (state once') in
  SmartDoorLock.is_locked (state once) = true /\
  SmartDoorLock.base (state once) = SmartDoorLock.base k /\
  state twice = state once /\
  twice = Run (Done tt) (state once) [AlreadyLocked (SmartDoorLock.name k)] /\
  SmartDoorLock.is_locked (state once') = false /\
  SmartDoorLock.base (state once') = SmartDoorLock.base k /\
  state twice' = state once' /\
  twice' = Run (Done tt) (state once') [AlreadyUnlocked (SmartDoorLock.name k)].
Proof.
  destruct k as [b []]; cbn; repeat split.
Qed.

(** C9: on a door lock, [turn_on()] and [turn_off()] return with the
    lock exactly as it was (same [is_locked], same power flag, same
    name) and only print that lock power is always on, respectively
    cannot be turned off; the same holds when the call is dispatched on
    a device object that is a door lock. *)
Theorem C9_lock_power_inert (k : SmartDoorLock.t) :
  SmartDoorLock.turn_on k = Run (Done tt) k [LockPowerAlwaysOn (SmartDoorLock.name k)] /\
  SmartDoorLock.turn_off k = Run (Done tt) k [LockPowerCannotOff (SmartDoorLock.name k)] /\
  Device.turn_on (Device.DoorLock k) =
    Run (Done tt) (Device.DoorLock k) [LockPowerAlwaysOn (SmartDoorLock.name k)] /\
  Device.turn_off (Device.DoorLock k) =
    Run (Done tt) (Device.DoorLock k) [LockPowerCannotOff (SmartDoorLock.name k)].
Proof. repeat split. Qed.

(** C10: on a light, [turn_on()] and [turn_off()] change only the
    power flag: brightness and name stay, the flag becomes true,
    respectively false.  So a light that is turned off keeps its
    brightness, and a light constructed with brightness 0 and then
    turned on is on with brightness 0; this is what the 18:00 rule does
    to the "Front Door Light" of [main]. *)
Theorem C10_light_power_keeps_brightness (l : SmartLight.t) (name : string) :
  state (SmartLight.turn_on l) = with_power l true /\
  state (SmartLight.turn_off l) = with_power l false /\
  SmartLight.brightness (state (SmartLight.turn_on l)) = SmartLight.brightness l /\
  SmartLight.brightness (state (SmartLight.turn_off l)) = SmartLight.brightness l /\
  SmartLight.is_on (state (SmartLight.turn_on l)) = true /\
  SmartLight.is_on (state (SmartLight.turn_off l)) = false /\
  state (SmartLight.turn_on (SmartLight.init name 0)) =
    SmartLight.mk (SmartDevice.mk name true) 0 /\
  SmartHomeHub.devices (state (SmartHomeHub.set_simulated_time wall_clock 18 0 main_hub))
    !! "front door light"
  = Some (Device.Light (SmartLight.mk (SmartDevice.mk "Front Door Light" true) 0)).
Proof.
  destruct (light_turn_on l) as [-> _], (light_turn_off l) as [-> _].
  repeat split.
Qed.

(** * Further properties *)

(** ** The registry *)

Lemma add_device_run (d : Device.t) (hub : SmartHomeHub.t) :
  SmartHomeHub.add_device d hub =
  Run (Done tt)
      (SmartHomeHub.mk (<[lower (Device.name d) := d]> (SmartHomeHub.devices hub))
                       (SmartHomeHub.simulated_time hub))
      [AddedDevice (Device.name d)].
Proof. reflexivity. Qed.

Lemma lower_ascii_idempotent (c : ascii) : lower_ascii (lower_ascii c) = lower_ascii c.
Proof.
  destruct c as [[] [] [] [] [] [] [] []]; reflexivity.
Qed.

Lemma lower_idempotent (s : string) : lower (lower s) = lower s.
Proof.
  induction s as [| c s IH]; [done |].
  cbn [lower]. by rewrite lower_ascii_idempotent, IH.
Qed.

(** X1: a device with an ASCII name can be looked up under its name
    in any letter case.  After [add_device(d)], [get_device(name)] finds
    the stored object for every ASCII [name] that lower-cases to the
    same string as [d]'s name, in particular for the name itself and
    for its lower-cased form, and the object found is [d]. *)
Theorem X1_add_then_get (hub : SmartHomeHub.t) (d : Device.t) (name : string) :
  is_ascii name = true -> is_ascii (Device.name d) = true ->
  lower name = lower (Device.name d) ->
  let hub' := state (SmartHomeHub.add_device d hub) in
  SmartHomeHub.get_device name hub' = Run (Done (Some (lower (Device.name d)))) hub' [] /\
  SmartHomeHub.get_device (Device.name d) hub'
    = Run (Done (Some (lower (Device.name d)))) hub' [] /\
  SmartHomeHub.get_device (lower (Device.name d)) hub'
    = Run (Done (Some (lower (Device.name d)))) hub' [] /\
  SmartHomeHub.devices hub' !! lower (Device.name d) = Some d.
Proof.
  intros _ _ Hname hub'.
  assert (E : SmartHomeHub.devices hub' !! lower (Device.name d) = Some d)
    by apply lookup_insert_eq.
  repeat split; try exact E.
  - by rewrite get_device_run, Hname, E.
  - by rewrite get_device_run, E.
  - by rewrite get_device_run, lower_idempotent, E.
Qed.

Lemma X1_add_then_get_witness :
  SmartHomeHub.get_device "LIVING room light"
    (state (SmartHomeHub.add_device
              (Device.Light (SmartLight.init "Living Room Light" 50)) main_hub))
  = Run (Done (Some "living room light"))
        (state (SmartHomeHub.add_device
                  (Device.Light (SmartLight.init "Living Room Light" 50)) main_hub)) [].
Proof.
  exact (proj1 (X1_add_then_get main_hub
                  (Device.Light (SmartLight.init "Living Room Light" 50))
                  "LIVING room light" eq_refl eq_refl eq_refl)).
Defined.

(** X2: the last [add_device] wins.  Registering a second device whose
    ASCII name differs from the first one's ASCII name at most in letter
    case replaces the first: the registry is the one that registering
    the second device alone would give, and no entry is added.  Every
    other entry of the registry is left as it was. *)
Theorem X2_add_device_last_wins (hub : SmartHomeHub.t) (d1 d2 : Device.t) :
  is_ascii (Device.name d1) = true -> is_ascii (Device.name d2) = true ->
  lower (Device.name d1) = lower (Device.name d2) ->
  let once := state (SmartHomeHub.add_device d1 hub) in
  let twice := state (SmartHomeHub.add_device d2 once) in
  twice = state (SmartHomeHub.add_device d2 hub) /\
  SmartHomeHub.devices twice !! lower (Device.name d1) = Some d2 /\
  dom (SmartHomeHub.devices twice) = dom (SmartHomeHub.devices once) /\
  (forall key, key <> lower (Device.name d2) ->
     SmartHomeHub.devices twice !! key = SmartHomeHub.devices hub !! key).
Proof.
  intros _ _ Hname once twice. subst once twice. rewrite !add_device_run. cbn [state].
  cbn [SmartHomeHub.devices SmartHomeHub.simulated_time].
  rewrite Hname. repeat split.
  - by rewrite insert_insert_eq.
  - apply lookup_insert_eq.
  - by rewrite insert_insert_eq, !dom_insert_L.
  - intros key Hkey. by rewrite !lookup_insert_ne.
Qed.

Lemma X2_add_device_last_wins_witness :
  SmartHomeHub.devices
    (state (SmartHomeHub.add_device (Device.Light (SmartLight.init "LIGHT A" 10))
       (state (SmartHomeHub.add_device (Device.Light (SmartLight.init "Light A" 90))
                 main_hub))))
    !! lower "Light A"
  = Some (Device.Light (SmartLight.init "LIGHT A" 10)).
Proof.
  exact (proj1 (proj2 (X2_add_device_last_wins main_hub
    (Device.Light (SmartLight.init "Light A" 90))
    (Device.Light (SmartLight.init "LIGHT A" 10)) eq_refl eq_refl eq_refl))).
Defined.



(** ** Properties of the registered objects that every call keeps *)

Section Invariant.
Variable P : string -> Device.t -> Prop.
Hypothesis P_invoke : forall key d m, P key d -> P key (state (invoke m d)).
Hypothesis P_drift : forall key th,
  P key (Device.Thermostat th) -> P key (Device.Thermostat (drift_or_stay th)).

Lemma kept_by_insert (hub : SmartHomeHub.t) (key : string) (d : Device.t) :
  map_Forall P (SmartHomeHub.devices hub) -> P key d ->
  map_Forall P (SmartHomeHub.devices (SmartHomeHub.mk (<[key := d]> (SmartHomeHub.devices hub))
                         (SmartHomeHub.simulated_time hub))).
Proof. intros H Hd. by apply map_Forall_insert_2. Qed.

Lemma kept_by_rule_1 (hh mm : Z) (hub : SmartHomeHub.t) :
  map_Forall P (SmartHomeHub.devices hub) -> map_Forall P (SmartHomeHub.devices (state (SmartHomeHub.rule_1 hh mm hub))).
Proof.
  intros H. destruct (rule_1_run hh mm hub) as [_ ->].
  destruct (SmartHomeHub.devices hub !! _) as [d |] eqn:E; [| done].
  destruct (_ && _); [| done].
  apply kept_by_insert; [done |].
  apply (P_invoke _ d turn_off_), (map_Forall_lookup_1 _ _ _ _ H E).
Qed.

Lemma kept_by_rule_2 (hh mm : Z) (hub : SmartHomeHub.t) :
  map_Forall P (SmartHomeHub.devices hub) -> map_Forall P (SmartHomeHub.devices (state (SmartHomeHub.rule_2 hh mm hub))).
Proof.
  intros H. destruct (rule_2_run hh mm hub) as [_ ->].
  destruct (SmartHomeHub.devices hub !! _) as [d |] eqn:E; [| done].
  destruct (_ && _); [| done].
  apply kept_by_insert; [done |].
  apply (P_invoke _ d turn_on_), (map_Forall_lookup_1 _ _ _ _ H E).
Qed.

Lemma kept_by_rule_3 (hh mm : Z) (hub : SmartHomeHub.t) :
  map_Forall P (SmartHomeHub.devices hub) -> map_Forall P (SmartHomeHub.devices (state (SmartHomeHub.rule_3 hh mm hub))).
Proof.
  intros H. rewrite rule_3_state.
  destruct (SmartHomeHub.devices hub !! _) as [[l | th | k] |] eqn:E; try done.
  destruct (_ && _); [| done].
  apply kept_by_insert; [done |].
  pose proof (P_invoke _ _ lock_ (map_Forall_lookup_1 _ _ _ _ H E)) as Hk.
  cbn [invoke Device.lock Device.as_lock state] in Hk. by rewrite lock_run in Hk.
Qed.

Lemma kept_by_rule_4 (hub : SmartHomeHub.t) :
  map_Forall P (SmartHomeHub.devices hub) -> map_Forall P (SmartHomeHub.devices (state (SmartHomeHub.rule_4 hub))).
Proof.
  intros H. rewrite rule_4_state.
  destruct (SmartHomeHub.devices hub !! _) as [[l | th | k] |] eqn:E; try done.
  destruct (SmartThermostat.is_on th); [| done].
  apply kept_by_insert; [done |].
  apply P_drift, (map_Forall_lookup_1 _ _ _ _ H E).
Qed.

Lemma kept_by_cycle (hub : SmartHomeHub.t) :
  map_Forall P (SmartHomeHub.devices hub) -> map_Forall P (SmartHomeHub.devices (state (SmartHomeHub.run_automation_rules hub))).
Proof.
  intros H. destruct (run_automation_rules_run hub) as [-> _].
  destruct (result _); [apply kept_by_rule_4 |];
    by apply kept_by_rule_3, kept_by_rule_2, kept_by_rule_1.
Qed.

Lemma kept_by_set_simulated_time (now : datetime.t) (hour minute : Z) (hub : SmartHomeHub.t) :
  map_Forall P (SmartHomeHub.devices hub) -> map_Forall P (SmartHomeHub.devices (state (SmartHomeHub.set_simulated_time now hour minute hub))).
Proof.
  intros H. destruct (decide (0 <= hour <= 23 /\ 0 <= minute <= 59)) as [[Hh Hm] | Hno].
  - rewrite set_simulated_time_valid, state_Run by done. by apply kept_by_cycle.
  - by rewrite set_simulated_time_rejected.
Qed.

Lemma kept_by_advance_time (minutes : Z) (hub : SmartHomeHub.t) :
  map_Forall P (SmartHomeHub.devices hub) -> map_Forall P (SmartHomeHub.devices (state (SmartHomeHub.advance_time minutes hub))).
Proof.
  intros H.
  destruct (datetime.add_minutes (SmartHomeHub.simulated_time hub) minutes) as [d | e] eqn:E.
  - rewrite (advance_time_done _ _ _ E), state_Run. by apply kept_by_cycle.
  - by rewrite (advance_time_overflow _ _ _ E).
Qed.

Lemma kept_by_control (name : string) (m : method) (hub : SmartHomeHub.t) :
  map_Forall P (SmartHomeHub.devices hub) -> map_Forall P (SmartHomeHub.devices (state (control name m hub))).
Proof.
  intros H. unfold control.
  destruct (SmartHomeHub.devices hub !! lower name) as [d |] eqn:E.
  - rewrite (bind_Done_state _ _ hub hub (Some (lower name)) [])
      by (by rewrite get_device_run, E).
    rewrite (on_Some _ _ d) by done. rewrite state_Run.
    apply kept_by_insert; [done |].
    apply P_invoke, (map_Forall_lookup_1 _ _ _ _ H E).
  - rewrite (bind_Done_state _ _ hub hub None []) by (by rewrite get_device_run, E).
    done.
Qed.

Lemma kept_by_perform (c : command) (hub : SmartHomeHub.t) :
  (forall k, c = add_device_ k -> P (lower (Device.name (construct k))) (construct k)) ->
  map_Forall P (SmartHomeHub.devices hub) -> map_Forall P (SmartHomeHub.devices (state (perform c hub))).
Proof.
  intros Hc H. destruct c as [k | name m | minutes | now hh mm |]; cbn [perform].
  - rewrite add_device_run, state_Run. apply kept_by_insert; [done | by apply Hc].
  - by apply kept_by_control.
  - by apply kept_by_advance_time.
  - by apply kept_by_set_simulated_time.
  - by apply kept_by_cycle.
Qed.

Lemma kept_by_perform_all (cs : list command) (hub : SmartHomeHub.t) :
  Forall (fun c => forall k, c = add_device_ k ->
                     P (lower (Device.name (construct k))) (construct k)) cs ->
  map_Forall P (SmartHomeHub.devices hub) -> map_Forall P (SmartHomeHub.devices (perform_all cs hub)).
Proof.
  revert hub. induction cs as [| c cs IH]; intros hub Hcs H; [done |].
  apply Forall_cons in Hcs as [Hc Hcs]. cbn [perform_all].
  apply IH; [done |]. by apply kept_by_perform.
Qed.

End Invariant.

(** ** What a method call leaves of a device *)

Lemma set_brightness_state (l : SmartLight.t) (level : Z) :
  state (SmartLight.set_brightness level l) =
  if decide (0 <= level <= 100)
  then SmartLight.mk (SmartDevice.mk (SmartLight.name l) (0 <? level)) level
  else l.
Proof.
  destruct (decide (0 <= level <= 100)) as [H | H].
  - apply set_brightness_valid, H.
  - by rewrite set_brightness_invalid.
Qed.

Lemma set_target_temp_state (th : SmartThermostat.t) (temp : Number.t) :
  state (SmartThermostat.set_target_temp temp th) =
  if Number.le (Number.Int 10) temp && Number.le temp (Number.Int 30)
  then SmartThermostat.mk (SmartThermostat.base th) (SmartThermostat.current_temp th) temp
         (dead_band (SmartThermostat.is_on th) (SmartThermostat.current_temp th) temp)
  else th.
Proof.
  destruct (Number.le (Number.Int 10) temp && Number.le temp (Number.Int 30)) eqn:E.
  - by apply set_target_temp_valid.
  - by rewrite set_target_temp_invalid.
Qed.

Lemma invoke_state (m : method) (d : Device.t) :
  state (invoke m d) =
  match m, d with
  | turn_on_, Device.Light l => Device.Light (with_power l true)
  | turn_off_, Device.Light l => Device.Light (with_power l false)
  | set_brightness_ level, Device.Light l =>
      Device.Light (state (SmartLight.set_brightness level l))
  | turn_on_, Device.Thermostat th => Device.Thermostat (state (SmartThermostat.turn_on th))
  | turn_off_, Device.Thermostat th => Device.Thermostat (state (SmartThermostat.turn_off th))
  | set_target_temp_ temp, Device.Thermostat th =>
      Device.Thermostat (state (SmartThermostat.set_target_temp temp th))
  | lock_, Device.DoorLock k =>
      Device.DoorLock (SmartDoorLock.mk (SmartDoorLock.base k) true)
  | unlock_, Device.DoorLock k =>
      Device.DoorLock (SmartDoorLock.mk (SmartDoorLock.base k) false)
  | _, _ => d
  end.
Proof.
  destruct m, d as [l | th | k]; try reflexivity;
    cbn [invoke Device.turn_on Device.turn_off Device.as_light Device.lock Device.unlock
         Device.as_lock state].
  - by destruct (light_turn_on l) as [-> _].
  - by destruct (light_turn_off l) as [-> _].
  - by rewrite lock_run.
  - by rewrite unlock_run.
Qed.

Ltac invoke_cases :=
  repeat match goal with
  | |- context [state (SmartLight.set_brightness ?level ?l)] =>
      rewrite (set_brightness_state l level); destruct (decide (0 <= level <= 100))
  | |- context [state (SmartThermostat.set_target_temp ?temp ?th)] =>
      rewrite (set_target_temp_state th temp);
      destruct (Number.le (Number.Int 10) temp) eqn:?,
               (Number.le temp (Number.Int 30)) eqn:?; cbn [andb]
  | |- context [state (SmartThermostat.turn_on ?th)] =>
      rewrite (proj1 (thermostat_turn_on_run th))
  | |- context [state (SmartThermostat.turn_off ?th)] =>
      rewrite (proj1 (thermostat_turn_off_run th))
  end.

Lemma invoke_name (m : method) (d : Device.t) :
  Device.name (state (invoke m d)) = Device.name d.
Proof.
  rewrite invoke_state. destruct m, d as [l | th | k]; invoke_cases; reflexivity.
Qed.

Lemma invoke_in_setter_range (m : method) (d : Device.t) :
  in_setter_range d -> in_setter_range (state (invoke m d)).
Proof.
  rewrite invoke_state. destruct m, d as [l | th | k]; invoke_cases; try done.
  intros _. cbn [in_setter_range SmartThermostat.target_temp].
  by apply (le_le_value 10 30).
Qed.

(** X4: in every hub reachable from [SmartHomeHub()] by any sequence of
    calls that pass ASCII names, every object is registered under the
    lower-cased form of the name it has now, which is an ASCII name: no
    method, rule or clock change renames a device or moves it to
    another key.  So [get_device(d.name)] finds [d] itself, whatever
    was called in between. *)
Theorem X4_keys_are_lowered_names
    (now : datetime.t) (cs : list command) (key : string) (d : Device.t) :
  Forall ascii_names cs ->
  let hub := perform_all cs (state (SmartHomeHub.init now)) in
  SmartHomeHub.devices hub !! key = Some d ->
  key = lower (Device.name d) /\
  is_ascii (Device.name d) = true /\
  SmartHomeHub.get_device (Device.name d) hub = Run (Done (Some key)) hub [].
Proof.
  intros Hcs hub E.
  assert (H : keys_are_lowered_names hub).
  { apply (kept_by_perform_all (fun k d => k = lower (Device.name d) /\
                                           is_ascii (Device.name d) = true)).
    - intros k' d' m. by rewrite invoke_name.
    - intros k' th. cbn [Device.name]. unfold SmartThermostat.name.
      by rewrite drift_or_stay_base.
    - eapply Forall_impl; [exact Hcs |]. by intros c Hc k ->.
    - apply map_Forall_empty. }
  pose proof (map_Forall_lookup_1 _ _ _ _ H E) as [Hk Ha]. cbn beta in Hk.
  split; [exact Hk |]. split; [exact Ha |].
  rewrite get_device_run, <- Hk. by rewrite E.
Qed.

Lemma X4_keys_are_lowered_names_witness :
  "front door lock" = lower (Device.name (Device.DoorLock
     (SmartDoorLock.mk (SmartDevice.mk "Front Door Lock" true) false))).
Proof.
  refine (proj1 (X4_keys_are_lowered_names wall_clock
    (main_devices ++ [control_ "FRONT door lock" unlock_; advance_time_ 90])
    "front door lock"
    (Device.DoorLock (SmartDoorLock.mk (SmartDevice.mk "Front Door Lock" true) false)) _ _)).
  - unfold main_devices. cbn [app].
    repeat (apply List.Forall_cons; [first [exact I | reflexivity] |]).
    apply List.Forall_nil.
  - vm_compute. reflexivity.
Defined.

(** X5: a door lock is always powered.  In every hub reachable from
    [SmartHomeHub()] by any sequence of calls, every registered door
    lock has [is_on] true; neither [turn_off()] nor the 23:00 rule (on a
    lock named "Living Room Light") switches it off. *)
Theorem X5_locks_stay_powered
    (now : datetime.t) (cs : list command) (key : string) (k : SmartDoorLock.t) :
  SmartHomeHub.devices (perform_all cs (state (SmartHomeHub.init now))) !! key
    = Some (Device.DoorLock k) ->
  SmartDoorLock.is_on k = true.
Proof.
  intros E.
  assert (H : locks_powered (perform_all cs (state (SmartHomeHub.init now)))).
  { apply (kept_by_perform_all (fun _ d => match d with
                                           | Device.DoorLock k => SmartDoorLock.is_on k = true
                                           | _ => True
                                           end)).
    - intros _ d m. rewrite invoke_state. by destruct m, d.
    - done.
    - apply Forall_forall. intros c _ [] _; done.
    - apply map_Forall_empty. }
  exact (map_Forall_lookup_1 _ _ _ _ H E).
Qed.

Lemma X5_locks_stay_powered_witness :
  SmartDoorLock.is_on (SmartDoorLock.mk (SmartDevice.mk "Living Room Light" true) true) = true.
Proof.
  refine (X5_locks_stay_powered wall_clock
    [add_device_ (NewDoorLock "Living Room Light" true);
     control_ "living room light" turn_off_;
     set_simulated_time_ wall_clock 23 0]
    "living room light"
    (SmartDoorLock.mk (SmartDevice.mk "Living Room Light" true) true) _).
  vm_compute. reflexivity.
Defined.

(** X6: the setters' ranges are kept.  The constructors do not check
    their arguments, but when every light is constructed with a
    brightness in 0-100 and every thermostat with a target in 10-30,
    then after any sequence of calls every registered light still has a
    brightness in 0-100 and every thermostat a target in 10-30 (a
    number with a value, so neither a NaN nor an infinity). *)
Theorem X6_setter_ranges_kept (now : datetime.t) (cs : list command) :
  Forall constructs_in_range cs ->
  all_in_setter_range (perform_all cs (state (SmartHomeHub.init now))) /\
  (forall key l,
     SmartHomeHub.devices (perform_all cs (state (SmartHomeHub.init now))) !! key
       = Some (Device.Light l) -> 0 <= SmartLight.brightness l <= 100) /\
  (forall key th,
     SmartHomeHub.devices (perform_all cs (state (SmartHomeHub.init now))) !! key
       = Some (Device.Thermostat th) ->
     exists v, Number.value (SmartThermostat.target_temp th) = Some v /\ (10 <= v <= 30)%Q).
Proof.
  intros Hcs.
  assert (H : all_in_setter_range (perform_all cs (state (SmartHomeHub.init now)))).
  { apply (kept_by_perform_all (fun _ d => in_setter_range d)).
    - intros _ d m. apply invoke_in_setter_range.
    - intros _ th. cbn [in_setter_range]. by rewrite drift_or_stay_target.
    - eapply Forall_impl; [exact Hcs |]. by intros c Hc k ->.
    - apply map_Forall_empty. }
  split; [exact H |]. split.
  - intros key l E. exact (map_Forall_lookup_1 _ _ _ _ H E).
  - intros key th E. exact (map_Forall_lookup_1 _ _ _ _ H E).
Qed.

Lemma X6_setter_ranges_kept_witness :
  all_in_setter_range
    (perform_all (main_devices ++ [control_ "Bedroom Light" (set_brightness_ 150);
                                   control_ "Main Thermostat" (set_target_temp_ (Number.Int 35))])
                 (state (SmartHomeHub.init wall_clock))).
Proof.
  refine (proj1 (X6_setter_ranges_kept wall_clock _ _)).
  unfold main_devices. cbn [app].
  repeat (apply List.Forall_cons;
          [cbn; first [exact I | lia
                      | eexists; split; [reflexivity | split; unfold Qle; cbn; lia]] |]).
  apply List.Forall_nil.
Defined.

(** ** The simulated clock *)

Lemma add_minutes_Done (d d' : datetime.t) (minutes : Z) :
  datetime.add_minutes d minutes = Done d' ->
  let total := datetime.hour d * 60 + datetime.minute d + minutes in
  -999999999 <= minutes `div` 1440 <= 999999999 /\
  1 <= datetime.ordinal d + total `div` 1440 <= 3652059 /\
  d' = datetime.mk (datetime.ordinal d + total `div` 1440)
                   ((total `mod` 1440) `div` 60) (total `mod` 60)
                   (datetime.second d) (datetime.microsecond d).
Proof.
  intros H total. unfold datetime.add_minutes in H. fold total in H.
  destruct (Z.leb_spec (-999999999) (minutes `div` 1440));
    destruct (Z.leb_spec (minutes `div` 1440) 999999999); cbn [andb] in H; try done.
  destruct (Z.leb_spec 1 (datetime.ordinal d + total `div` 1440));
    destruct (Z.leb_spec (datetime.ordinal d + total `div` 1440) 3652059);
    cbn [andb] in H; try done.
  injection H as <-. repeat split; lia.
Qed.

Lemma add_minutes_intro (d : datetime.t) (minutes : Z) :
  let total := datetime.hour d * 60 + datetime.minute d + minutes in
  -999999999 <= minutes `div` 1440 <= 999999999 ->
  1 <= datetime.ordinal d + total `div` 1440 <= 3652059 ->
  datetime.add_minutes d minutes =
  Done (datetime.mk (datetime.ordinal d + total `div` 1440)
                    ((total `mod` 1440) `div` 60) (total `mod` 60)
                    (datetime.second d) (datetime.microsecond d)).
Proof.
  intros total H1 H2. unfold datetime.add_minutes. fold total.
  destruct (Z.leb_spec (-999999999) (minutes `div` 1440)); [| lia].
  destruct (Z.leb_spec (minutes `div` 1440) 999999999); [| lia].
  destruct (Z.leb_spec 1 (datetime.ordinal d + total `div` 1440)); [| lia].
  destruct (Z.leb_spec (datetime.ordinal d + total `div` 1440) 3652059); [| lia].
  reflexivity.
Qed.

Lemma add_minutes_on_the_minute (d d' : datetime.t) (minutes : Z) :
  on_the_minute d -> datetime.add_minutes d minutes = Done d' -> on_the_minute d'.
Proof.
  intros (Ho & Hh & Hm & Hs & Hu) H.
  apply add_minutes_Done in H as (_ & Ho' & ->).
  unfold on_the_minute. cbn [datetime.ordinal datetime.hour datetime.minute
    datetime.second datetime.microsecond].
  repeat split; try done; try lia.
  all: Z.div_mod_to_equations; lia.
Qed.

Lemma add_minutes_zero (d : datetime.t) :
  on_the_minute d -> datetime.add_minutes d 0 = Done d.
Proof.
  intros (Ho & Hh & Hm & Hs & Hu).
  rewrite add_minutes_intro.
  - destruct d as [o h m s u]. cbn in *. f_equal. f_equal.
    all: Z.div_mod_to_equations; lia.
  - done.
  - Z.div_mod_to_equations; lia.
Qed.

Lemma add_minutes_compose (d d1 d2 : datetime.t) (a b : Z) :
  on_the_minute d ->
  datetime.add_minutes d a = Done d1 ->
  datetime.add_minutes d1 b = Done d2 ->
  datetime.add_minutes d (a + b) = Done d2.
Proof.
  intros (Ho & Hh & Hm & Hs & Hu) Ha Hb.
  apply add_minutes_Done in Ha as (Ha1 & Ha2 & ->).
  apply add_minutes_Done in Hb as (Hb1 & Hb2 & ->).
  cbn [datetime.ordinal datetime.hour datetime.minute datetime.second
       datetime.microsecond] in *.
  rewrite add_minutes_intro.
  - f_equal. f_equal; Z.div_mod_to_equations; lia.
  - Z.div_mod_to_equations; lia.
  - Z.div_mod_to_equations; lia.
Qed.

Lemma control_time (name : string) (m : method) (hub : SmartHomeHub.t) :
  SmartHomeHub.simulated_time (state (control name m hub)) = SmartHomeHub.simulated_time hub.
Proof.
  unfold control.
  destruct (SmartHomeHub.devices hub !! lower name) as [d |] eqn:E.
  - rewrite (bind_Done_state _ _ hub hub (Some (lower name)) [])
      by (by rewrite get_device_run, E).
    by rewrite (on_Some _ _ d).
  - by rewrite (bind_Done_state _ _ hub hub None []) by (by rewrite get_device_run, E).
Qed.

Lemma init_time (now : datetime.t) :
  SmartHomeHub.simulated_time (state (SmartHomeHub.init now)) =
  datetime.mk (datetime.ordinal now) (datetime.hour now) (datetime.minute now) 0 0.
Proof. reflexivity. Qed.

Lemma perform_on_the_minute (c : command) (hub : SmartHomeHub.t) :
  wall_clock_valid c ->
  on_the_minute (SmartHomeHub.simulated_time hub) ->
  on_the_minute (SmartHomeHub.simulated_time (state (perform c hub))).
Proof.
  intros Hc H. destruct c as [k | name m | minutes | now hh mm |]; cbn [perform].
  - exact H.
  - by rewrite control_time.
  - destruct (datetime.add_minutes (SmartHomeHub.simulated_time hub) minutes)
      as [d | e] eqn:E.
    + rewrite (advance_time_done _ _ _ E), state_Run, run_automation_rules_time.
      exact (add_minutes_on_the_minute _ _ _ H E).
    + by rewrite (advance_time_overflow _ _ _ E).
  - destruct (decide (0 <= hh <= 23 /\ 0 <= mm <= 59)) as [[Hh Hm] | Hno].
    + rewrite set_simulated_time_valid, state_Run, run_automation_rules_time by done.
      destruct Hc as (Ho & _). unfold on_the_minute. cbn. lia.
    + by rewrite set_simulated_time_rejected.
  - by rewrite run_automation_rules_time.
Qed.

(** X7: the simulated clock always shows a whole minute of a
    representable day.  When every wall clock reading is one that
    [datetime.now()] can return, then after any sequence of calls the
    simulated clock has hour 0-23, minute 0-59, seconds and
    microseconds zero, and a date between [datetime.min] and
    [datetime.max]; a failed [advance_time] or [set_simulated_time]
    does not disturb this. *)
Theorem X7_clock_on_the_minute (now : datetime.t) (cs : list command) :
  datetime.valid now ->
  Forall wall_clock_valid cs ->
  on_the_minute (SmartHomeHub.simulated_time (perform_all cs (state (SmartHomeHub.init now)))).
Proof.
  intros Hnow Hcs.
  assert (H0 : on_the_minute (SmartHomeHub.simulated_time (state (SmartHomeHub.init now)))).
  { destruct Hnow as (Ho & Hh & Hm & _). rewrite init_time. unfold on_the_minute. cbn. lia. }
  revert H0. generalize (state (SmartHomeHub.init now)).
  induction Hcs as [| c cs Hc Hcs IH]; intros hub H; [exact H |].
  cbn [perform_all]. apply IH. by apply perform_on_the_minute.
Qed.

Lemma X7_clock_on_the_minute_witness :
  on_the_minute
    (SmartHomeHub.simulated_time
       (perform_all [advance_time_ (-100000); set_simulated_time_ wall_clock 99 0;
                     advance_time_ 7]
                    (state (SmartHomeHub.init wall_clock)))).
Proof.
  apply X7_clock_on_the_minute.
  - unfold datetime.valid, wall_clock. cbn. lia.
  - repeat (apply List.Forall_cons;
            [first [exact I | unfold wall_clock_valid, datetime.valid, wall_clock; cbn; lia] |]).
    apply List.Forall_nil.
Defined.

(** X8: clock changes add up.  When [advance_time(a)] and then
    [advance_time(b)] both succeed, the simulated clock ends where a
    single [advance_time(a + b)] puts it; negative minutes move the
    clock back, so [advance_time(a)] followed by [advance_time(-a)]
    restores the clock. *)
Theorem X8_advance_time_adds_up (hub : SmartHomeHub.t) (a b : Z) (d1 d2 : datetime.t) :
  on_the_minute (SmartHomeHub.simulated_time hub) ->
  datetime.add_minutes (SmartHomeHub.simulated_time hub) a = Done d1 ->
  datetime.add_minutes d1 b = Done d2 ->
  let twice := state (SmartHomeHub.advance_time b (state (SmartHomeHub.advance_time a hub))) in
  SmartHomeHub.simulated_time twice = d2 /\
  SmartHomeHub.simulated_time (state (SmartHomeHub.advance_time (a + b) hub)) = d2 /\
  (b = - a -> SmartHomeHub.simulated_time twice = SmartHomeHub.simulated_time hub).
Proof.
  intros H Ha Hb twice.
  assert (H1 : SmartHomeHub.simulated_time (state (SmartHomeHub.advance_time a hub)) = d1).
  { by rewrite (advance_time_done _ _ _ Ha), state_Run, run_automation_rules_time. }
  assert (H2 : SmartHomeHub.simulated_time twice = d2).
  { subst twice. rewrite <- H1 in Hb.
    by rewrite (advance_time_done _ _ _ Hb), state_Run, run_automation_rules_time. }
  pose proof (add_minutes_compose _ _ _ _ _ H Ha Hb) as Hab.
  split; [exact H2 |]. split.
  - by rewrite (advance_time_done _ _ _ Hab), state_Run, run_automation_rules_time.
  - intros ->. rewrite H2. rewrite Z.add_opp_diag_r, add_minutes_zero in Hab by done.
    by injection Hab.
Qed.

Lemma X8_advance_time_adds_up_witness :
  SmartHomeHub.simulated_time
    (state (SmartHomeHub.advance_time (-90)
              (state (SmartHomeHub.advance_time 90 main_hub))))
  = SmartHomeHub.simulated_time main_hub.
Proof.
  refine (proj2 (proj2 (X8_advance_time_adds_up main_hub 90 (-90)
    (datetime.mk 738000 12 0 0 0) (datetime.mk 738000 10 30 0 0) _ _ _)) eq_refl).
  - vm_compute. intuition discriminate.
  - vm_compute. reflexivity.
  - vm_compute. reflexivity.
Defined.



(** ** The automation cycle: what it leaves alone and when it fails *)

Lemma rule_1_skip (hh mm : Z) (hub : SmartHomeHub.t) :
  SmartHomeHub.devices hub !! "living room light" = None \/ (hh =? 23) && (mm =? 0) = false ->
  SmartHomeHub.rule_1 hh mm hub = Run (Done tt) hub [].
Proof.
  intros H. unfold SmartHomeHub.rule_1.
  rewrite (bind_Done _ _ _ _ _ _ (get_device_run _ _)).
  change (lower "Living Room Light") with "living room light".
  destruct (SmartHomeHub.devices hub !! "living room light") as [d |] eqn:E.
  - destruct H as [H | ->]; [done | reflexivity].
  - reflexivity.
Qed.

Lemma rule_2_skip (hh mm : Z) (hub : SmartHomeHub.t) :
  SmartHomeHub.devices hub !! "front door light" = None \/ (hh =? 18) && (mm =? 0) = false ->
  SmartHomeHub.rule_2 hh mm hub = Run (Done tt) hub [].
Proof.
  intros H. unfold SmartHomeHub.rule_2.
  rewrite (bind_Done _ _ _ _ _ _ (get_device_run _ _)).
  change (lower "Front Door Light") with "front door light".
  destruct (SmartHomeHub.devices hub !! "front door light") as [d |] eqn:E.
  - destruct H as [H | ->]; [done | reflexivity].
  - reflexivity.
Qed.

Lemma rule_3_skip (hh mm : Z) (hub : SmartHomeHub.t) :
  SmartHomeHub.devices hub !! "front door lock" = None \/ (hh =? 22) && (mm =? 0) = false ->
  SmartHomeHub.rule_3 hh mm hub = Run (Done tt) hub [].
Proof.
  intros H. unfold SmartHomeHub.rule_3.
  rewrite (bind_Done _ _ _ _ _ _ (get_device_run _ _)).
  change (lower "Front Door Lock") with "front door lock".
  destruct (SmartHomeHub.devices hub !! "front door lock") as [d |] eqn:E.
  - destruct H as [H | ->]; [done | reflexivity].
  - reflexivity.
Qed.

Lemma rule_4_skip (hub : SmartHomeHub.t) :
  SmartHomeHub.devices hub !! "main thermostat" = None ->
  SmartHomeHub.rule_4 hub = Run (Done tt) hub [].
Proof.
  intros E. unfold SmartHomeHub.rule_4.
  rewrite (bind_Done _ _ _ _ _ _ (get_device_run _ _)).
  change (lower "Main Thermostat") with "main thermostat".
  by rewrite E.
Qed.

Lemma rule_4_off (hub : SmartHomeHub.t) (d : Device.t) :
  SmartHomeHub.devices hub !! "main thermostat" = Some d ->
  Device.is_on d = false ->
  SmartHomeHub.rule_4 hub = Run (Done tt) hub [].
Proof.
  intros E Hoff. unfold SmartHomeHub.rule_4.
  rewrite (bind_Done _ _ _ _ _ _ (get_device_run _ _)).
  change (lower "Main Thermostat") with "main thermostat". rewrite E.
  rewrite (bind_Done _ _ _ _ _ _ (on_get_is_on _ _ _ E)), Hoff.
  reflexivity.
Qed.



Lemma lookup_insert_is_Some_dom (m : gmap string Device.t) (key : string) (d d' : Device.t) :
  m !! key = Some d -> dom (<[key := d']> m) = dom m.
Proof. intros H. apply dom_insert_lookup_L. by eexists. Qed.

Lemma rule_1_dom (hh mm : Z) (hub : SmartHomeHub.t) :
  dom (SmartHomeHub.devices (state (SmartHomeHub.rule_1 hh mm hub)))
  = dom (SmartHomeHub.devices hub).
Proof.
  destruct (rule_1_run hh mm hub) as [_ ->].
  destruct (SmartHomeHub.devices hub !! _) as [d |] eqn:E; [| done].
  destruct (_ && _); [| done]. by eapply lookup_insert_is_Some_dom.
Qed.

Lemma rule_2_dom (hh mm : Z) (hub : SmartHomeHub.t) :
  dom (SmartHomeHub.devices (state (SmartHomeHub.rule_2 hh mm hub)))
  = dom (SmartHomeHub.devices hub).
Proof.
  destruct (rule_2_run hh mm hub) as [_ ->].
  destruct (SmartHomeHub.devices hub !! _) as [d |] eqn:E; [| done].
  destruct (_ && _); [| done]. by eapply lookup_insert_is_Some_dom.
Qed.

Lemma rule_3_dom (hh mm : Z) (hub : SmartHomeHub.t) :
  dom (SmartHomeHub.devices (state (SmartHomeHub.rule_3 hh mm hub)))
  = dom (SmartHomeHub.devices hub).
Proof.
  rewrite rule_3_state.
  destruct (SmartHomeHub.devices hub !! _) as [[l | th | k] |] eqn:E; try done.
  destruct (_ && _); [| done]. by eapply lookup_insert_is_Some_dom.
Qed.

Lemma rule_4_dom (hub : SmartHomeHub.t) :
  dom (SmartHomeHub.devices (state (SmartHomeHub.rule_4 hub)))
  = dom (SmartHomeHub.devices hub).
Proof.
  rewrite rule_4_state.
  destruct (SmartHomeHub.devices hub !! _) as [[l | th | k] |] eqn:E; try done.
  destruct (SmartThermostat.is_on th); [| done]. by eapply lookup_insert_is_Some_dom.
Qed.

Lemma cycle_dom (hub : SmartHomeHub.t) :
  dom (SmartHomeHub.devices (state (SmartHomeHub.run_automation_rules hub)))
  = dom (SmartHomeHub.devices hub).
Proof.
  destruct (run_automation_rules_run hub) as [-> _].
  destruct (result _); by rewrite ?rule_4_dom, rule_3_dom, rule_2_dom, rule_1_dom.
Qed.

Lemma cycle_other_keys (hub : SmartHomeHub.t) (key : string) :
  key <> "living room light" -> key <> "front door light" ->
  key <> "front door lock" -> key <> "main thermostat" ->
  SmartHomeHub.devices (state (SmartHomeHub.run_automation_rules hub)) !! key
  = SmartHomeHub.devices hub !! key.
Proof.
  intros H1 H2 H3 H4. destruct (run_automation_rules_run hub) as [-> _].
  destruct (result _);
    by rewrite ?rule_4_frame, rule_3_frame, rule_2_frame, rule_1_frame.
Qed.

Lemma cycle_lookup_None (hub : SmartHomeHub.t) (key : string) :
  SmartHomeHub.devices hub !! key = None ->
  SmartHomeHub.devices (state (SmartHomeHub.run_automation_rules hub)) !! key = None.
Proof.
  intros E. apply not_elem_of_dom. rewrite cycle_dom. by apply not_elem_of_dom.
Qed.

(** X10: what an automation cycle never does.  Whatever the hub holds
    and whether or not the cycle ends by an exception, it leaves the
    simulated clock as it is, registers and removes no device, and
    touches no device other than the four registered as "living room
    light", "front door light", "front door lock" and "main
    thermostat". *)
Theorem X10_cycle_frame (hub : SmartHomeHub.t) :
  let hub' := state (SmartHomeHub.run_automation_rules hub) in
  SmartHomeHub.simulated_time hub' = SmartHomeHub.simulated_time hub /\
  dom (SmartHomeHub.devices hub') = dom (SmartHomeHub.devices hub) /\
  (forall key,
     key <> "living room light" -> key <> "front door light" ->
     key <> "front door lock" -> key <> "main thermostat" ->
     SmartHomeHub.devices hub' !! key = SmartHomeHub.devices hub !! key).
Proof.
  intros hub'. subst hub'.
  split; [apply run_automation_rules_time |].
  split; [apply cycle_dom |]. apply cycle_other_keys.
Qed.

(** X11: missing devices are not an error.  When none of the four
    names the rules look up is registered (as on a new hub), a cycle
    returns normally, changes nothing and prints only its opening and
    closing lines. *)
Theorem X11_cycle_without_devices (hub : SmartHomeHub.t) :
  no_rule_device hub ->
  SmartHomeHub.run_automation_rules hub = Run (Done tt) hub [RunningRules; RulesComplete].
Proof.
  intros (E1 & E2 & E3 & E4). unfold SmartHomeHub.run_automation_rules.
  rewrite (bind_Done _ _ _ _ _ _ (print_run _ _)).
  rewrite (bind_Done _ _ _ _ _ _ (get_run _)).
  rewrite (bind_Done _ _ _ _ _ _ (rule_1_skip _ _ _ (or_introl E1))).
  rewrite (bind_Done _ _ _ _ _ _ (rule_2_skip _ _ _ (or_introl E2))).
  rewrite (bind_Done _ _ _ _ _ _ (rule_3_skip _ _ _ (or_introl E3))).
  rewrite (bind_Done _ _ _ _ _ _ (rule_4_skip _ E4)).
  reflexivity.
Qed.

Lemma X11_cycle_without_devices_witness :
  SmartHomeHub.run_automation_rules (state (SmartHomeHub.init wall_clock))
  = Run (Done tt) (state (SmartHomeHub.init wall_clock)) [RunningRules; RulesComplete].
Proof.
  apply X11_cycle_without_devices. repeat split; vm_compute; reflexivity.
Defined.



(** X13: a device of the wrong class under the lock's name.  When the
    object registered as "Front Door Lock" is not a door lock, a cycle
    evaluated at 22:00 ends by [AttributeError] where rule 3 reads
    [is_locked]: the hub is left exactly as it was, the closing line is
    not printed and the thermostat rule is not reached.  At any other
    minute rule 3 does not look at the object. *)
Theorem X13_front_door_lock_of_wrong_class (hub : SmartHomeHub.t) (d : Device.t) :
  SmartHomeHub.devices hub !! "front door lock" = Some d ->
  (forall k, d <> Device.DoorLock k) ->
  (clock_at hub 22 0 ->
     SmartHomeHub.run_automation_rules hub = Run (Raised AttributeError) hub [RunningRules]) /\
  (~ clock_at hub 22 0 ->
     SmartHomeHub.rule_3 (current_hour hub) (current_minute hub) hub = Run (Done tt) hub []).
Proof.
  intros E Hd. split.
  - intros [Hh Hm]. unfold SmartHomeHub.run_automation_rules.
    rewrite (bind_Done _ _ _ _ _ _ (print_run _ _)).
    rewrite (bind_Done _ _ _ _ _ _ (get_run _)).
    rewrite Hh, Hm.
    rewrite (bind_Done _ _ _ _ _ _ (rule_1_skip 22 0 hub (or_intror eq_refl))).
    rewrite (bind_Done _ _ _ _ _ _ (rule_2_skip 22 0 hub (or_intror eq_refl))).
    rewrite (bind_Raised _ _ _ _ _ _ (rule_3_raises hub d E Hd)).
    reflexivity.
  - intros H. apply rule_3_skip. right. by apply clock_at_false.
Qed.

Lemma X13_front_door_lock_of_wrong_class_witness :
  SmartHomeHub.run_automation_rules
    (state (SmartHomeHub.add_device
              (Device.Light (SmartLight.init "Front Door Lock" 50))
              (state (SmartHomeHub.init (datetime.mk 738000 22 0 15 123456)))))
  = Run (Raised AttributeError)
        (state (SmartHomeHub.add_device
                  (Device.Light (SmartLight.init "Front Door Lock" 50))
                  (state (SmartHomeHub.init (datetime.mk 738000 22 0 15 123456)))))
        [RunningRules].
Proof.
  refine (proj1 (X13_front_door_lock_of_wrong_class _
    (Device.Light (SmartLight.init "Front Door Lock" 50)) _ _) _).
  - vm_compute. reflexivity.
  - intros k. discriminate.
  - split; vm_compute; reflexivity.
Defined.








(** ** Running the rules twice *)

Lemma device_turn_off_twice (d : Device.t) :
  state (Device.turn_off (state (Device.turn_off d))) = state (Device.turn_off d).
Proof.
  pose proof (invoke_state turn_off_ d) as H. cbn [invoke] in H. rewrite H.
  pose proof (invoke_state turn_off_) as H'. cbn [invoke] in H'.
  destruct d as [l | th | k]; rewrite H'; [done | | done].
  f_equal. rewrite !(proj1 (thermostat_turn_off_run _)). reflexivity.
Qed.

Lemma device_turn_on_twice (d : Device.t) :
  state (Device.turn_on (state (Device.turn_on d))) = state (Device.turn_on d).
Proof.
  pose proof (invoke_state turn_on_ d) as H. cbn [invoke] in H. rewrite H.
  pose proof (invoke_state turn_on_) as H'. cbn [invoke] in H'.
  destruct d as [l | th | k]; rewrite H'; [done | | done].
  f_equal. rewrite !(proj1 (thermostat_turn_on_run _)). reflexivity.
Qed.

Lemma cycle_front_door_lock_other (hub : SmartHomeHub.t) (d : Device.t) :
  SmartHomeHub.devices hub !! "front door lock" = Some d ->
  (forall k, d <> Device.DoorLock k) ->
  SmartHomeHub.devices (state (SmartHomeHub.run_automation_rules hub)) !! "front door lock"
  = Some d.
Proof.
  intros E Hd. destruct (run_automation_rules_run hub) as [-> _].
  set (hh := datetime.hour _). set (mm := datetime.minute _).
  set (h2 := state (SmartHomeHub.rule_2 hh mm _)).
  assert (E2 : SmartHomeHub.devices h2 !! "front door lock" = Some d)
    by (subst h2; by rewrite rule_2_frame, rule_1_frame).
  assert (E3 : SmartHomeHub.devices (state (SmartHomeHub.rule_3 hh mm h2))
                 !! "front door lock" = Some d).
  { rewrite rule_3_state, E2. destruct d as [l | th | k]; [done | done |].
    by destruct (Hd k). }
  destruct (result _); rewrite ?rule_4_frame by done; exact E3.
Qed.

Lemma cycle_hour (hub : SmartHomeHub.t) :
  current_hour (state (SmartHomeHub.run_automation_rules hub)) = current_hour hub /\
  current_minute (state (SmartHomeHub.run_automation_rules hub)) = current_minute hub.
Proof. unfold current_hour, current_minute. by rewrite run_automation_rules_time. Qed.

(** X15: the time-triggered rules are idempotent.  Running the rules a
    second time at the same timestamp changes nothing the first run has
    not already done: the clock and every registered device other than
    "main thermostat" are after two cycles what they are after one
    (the thermostat is the exception, it drifts on every cycle). *)
Theorem X15_cycle_twice (hub : SmartHomeHub.t) (key : string) :
  key <> "main thermostat" ->
  let once := state (SmartHomeHub.run_automation_rules hub) in
  let twice := state (SmartHomeHub.run_automation_rules once) in
  SmartHomeHub.devices twice !! key = SmartHomeHub.devices once !! key /\
  SmartHomeHub.simulated_time twice = SmartHomeHub.simulated_time once.
Proof.
  intros Hkey once twice. subst twice.
  split; [| apply run_automation_rules_time].
  destruct (cycle_hour hub) as [Hh Hm]. fold once in Hh, Hm.
  destruct (SmartHomeHub.devices hub !! key) as [d |] eqn:E.
  2: { pose proof (cycle_lookup_None hub key E) as E1. fold once in E1.
       by rewrite E1, (cycle_lookup_None once key E1). }
  destruct (decide (key = "living room light")) as [-> | H1].
  { pose proof (cycle_living_room_light hub d E) as E1. fold once in E1.
    rewrite (cycle_living_room_light once _ E1), E1, Hh, Hm. f_equal.
    destruct ((current_hour hub =? 23) && (current_minute hub =? 0)); [| done].
    cbn [andb]. destruct (Device.is_on d) eqn:Hon.
    - destruct (Device.is_on (state (Device.turn_off d))); [| done].
      apply device_turn_off_twice.
    - by rewrite Hon. }
  destruct (decide (key = "front door light")) as [-> | H2].
  { pose proof (cycle_front_door_light hub d E) as E1. fold once in E1.
    rewrite (cycle_front_door_light once _ E1), E1, Hh, Hm. f_equal.
    destruct ((current_hour hub =? 18) && (current_minute hub =? 0)); [| done].
    cbn [andb]. destruct (Device.is_on d) eqn:Hon; cbn [negb].
    - by rewrite Hon.
    - destruct (Device.is_on (state (Device.turn_on d))); [done |].
      apply device_turn_on_twice. }
  destruct (decide (key = "front door lock")) as [-> | H3].
  { destruct d as [l | th | k].
    - pose proof (cycle_front_door_lock_other hub _ E ltac:(done)) as E1. fold once in E1.
      by rewrite E1, (cycle_front_door_lock_other once _ E1).
    - pose proof (cycle_front_door_lock_other hub _ E ltac:(done)) as E1. fold once in E1.
      by rewrite E1, (cycle_front_door_lock_other once _ E1).
    - pose proof (cycle_front_door_lock hub k E) as E1. fold once in E1.
      rewrite (cycle_front_door_lock once _ E1), E1, Hh, Hm. do 2 f_equal.
      destruct ((current_hour hub =? 22) && (current_minute hub =? 0)); [| done].
      cbn [andb]. by destruct (SmartDoorLock.is_locked k) eqn:Hl; cbn [negb]; rewrite ?Hl. }
  by rewrite !cycle_other_keys.
Qed.

Lemma X15_cycle_twice_witness :
  SmartHomeHub.devices
    (state (SmartHomeHub.run_automation_rules
              (state (SmartHomeHub.run_automation_rules evening_hub))))
    !! "living room light"
  = SmartHomeHub.devices (state (SmartHomeHub.run_automation_rules evening_hub))
    !! "living room light".
Proof.
  refine (proj1 (X15_cycle_twice evening_hub "living room light" _)). discriminate.
Defined.

(** ** Where the thermostat's drift ends *)

Lemma drift_or_stay_idle (th : SmartThermostat.t) :
  mode_consistent th -> SmartThermostat.mode th = Idle -> drift_or_stay th = th.
Proof.
  intros Hmc Hm. unfold drift_or_stay, thermostat_drift, drifted_temp.
  rewrite Hm. unfold mode_consistent in Hmc. rewrite <- Hmc.
  destruct th as [b c g m]. cbn in *. by subst m.
Qed.

Lemma cycles_main_thermostat_off (n : nat) (hub : SmartHomeHub.t) (th : SmartThermostat.t) :
  SmartHomeHub.devices hub !! "main thermostat" = Some (Device.Thermostat th) ->
  SmartThermostat.is_on th = false ->
  lock_rule_runs hub ->
  SmartHomeHub.devices (cycles n hub) !! "main thermostat" = Some (Device.Thermostat th).
Proof.
  revert hub. induction n as [| n IH]; intros hub E Hoff Hlock; [done |].
  cbn [cycles]. apply IH; [| done | by apply cycle_keeps_lock_rule].
  destruct (cycle_main_thermostat hub th E Hlock) as [_ ->]. by rewrite Hoff.
Qed.


(** A thermostat at rest stays at rest.  Let "Main Thermostat" be
    registered in a hub where the lock rule can run.  When it is off,
    or on and Idle as the dead-band rule has it, every cycle returns
    normally and any number of cycles leaves it exactly as it is. *)
Lemma thermostat_at_rest_stays
    (hub : SmartHomeHub.t) (th : SmartThermostat.t) (n : nat) :
  SmartHomeHub.devices hub !! "main thermostat" = Some (Device.Thermostat th) ->
  lock_rule_runs hub ->
  SmartThermostat.is_on th = false \/
    (SmartThermostat.mode th = Idle /\ mode_consistent th) ->
  result (SmartHomeHub.run_automation_rules hub) = Done tt /\
  SmartHomeHub.devices (cycles n hub) !! "main thermostat" = Some (Device.Thermostat th).
Proof.
  intros E Hlock H.
  destruct (cycle_main_thermostat hub th E Hlock) as [Hres _].
  destruct (SmartThermostat.is_on th) eqn:Hon.
  - destruct H as [H | [Hm Hmc]]; [done |].
    pose proof (drift_or_stay_idle th Hmc Hm) as Hfix.
    split.
    + rewrite Hres. unfold thermostat_drift, drifted_temp. by rewrite Hm.
    + rewrite (cycles_main_thermostat n hub th E Hon Hlock).
      by rewrite (drifts_fixed n th Hfix).
  - split; [exact Hres |]. by apply cycles_main_thermostat_off.
Qed.





(** ** The setters and the power methods of a single device *)



(** X19: a thermostat's power methods.  [turn_on()] and [turn_off()]
    never change the name or either temperature.  A second [turn_on()]
    leaves the state of the first, [turn_off()] after [turn_on()] gives
    what [turn_off()] alone gives, and on a thermostat that is off with
    mode Off the pair [turn_on()], [turn_off()] restores it exactly. *)
Theorem X19_thermostat_power (th : SmartThermostat.t) :
  let on := state (SmartThermostat.turn_on th) in
  let off := state (SmartThermostat.turn_off th) in
  SmartThermostat.name on = SmartThermostat.name th /\
  SmartThermostat.current_temp on = SmartThermostat.current_temp th /\
  SmartThermostat.target_temp on = SmartThermostat.target_temp th /\
  SmartThermostat.name off = SmartThermostat.name th /\
  SmartThermostat.current_temp off = SmartThermostat.current_temp th /\
  SmartThermostat.target_temp off = SmartThermostat.target_temp th /\
  state (SmartThermostat.turn_on on) = on /\
  state (SmartThermostat.turn_off on) = off /\
  state (SmartThermostat.turn_off off) = off /\
  (SmartThermostat.is_on th = false -> SmartThermostat.mode th = Off ->
     state (SmartThermostat.turn_off on) = th).
Proof.
  intros on off. subst on off.
  repeat (rewrite (proj1 (thermostat_turn_on_run _))
          || rewrite (proj1 (thermostat_turn_off_run _))).
  destruct th as [[n o] c g m]. cbn. repeat split; try done.
  by intros -> ->.
Qed.

(** X20: the last valid [set_brightness] decides.  After
    [set_brightness(level)] with [level] in 0-100 the light is
    determined by its name and [level] alone: it is on exactly when
    [level > 0].  So whatever [set_brightness], [turn_on] or [turn_off]
    calls came before leave no trace, and repeating the call changes
    nothing. *)
Theorem X20_set_brightness_last_wins (l l' : SmartLight.t) (level : Z) :
  0 <= level <= 100 ->
  SmartLight.name l = SmartLight.name l' ->
  state (SmartLight.set_brightness level l) = state (SmartLight.set_brightness level l') /\
  SmartLight.is_on (state (SmartLight.set_brightness level l)) = (0 <? level) /\
  (forall earlier,
     state (SmartLight.set_brightness level (state (SmartLight.set_brightness earlier l)))
     = state (SmartLight.set_brightness level l)) /\
  state (SmartLight.set_brightness level (state (SmartLight.turn_on l)))
    = state (SmartLight.set_brightness level l) /\
  state (SmartLight.set_brightness level (state (SmartLight.turn_off l)))
    = state (SmartLight.set_brightness level l) /\
  state (SmartLight.set_brightness level (state (SmartLight.set_brightness level l)))
    = state (SmartLight.set_brightness level l).
Proof.
  intros H Hname.
  assert (Hany : forall x, SmartLight.name x = SmartLight.name l ->
    state (SmartLight.set_brightness level x) = state (SmartLight.set_brightness level l)).
  { intros x Hx. rewrite !(proj1 (set_brightness_valid _ level H)). by rewrite Hx. }
  split; [symmetry; by apply Hany |].
  split; [by rewrite (proj1 (set_brightness_valid _ level H)) |].
  split; [| split; [| split]].
  - intros earlier. apply Hany. rewrite set_brightness_state. by destruct (decide _).
  - apply Hany. by rewrite (proj1 (light_turn_on l)).
  - apply Hany. by rewrite (proj1 (light_turn_off l)).
  - apply Hany. by rewrite (proj1 (set_brightness_valid _ level H)).
Qed.

Lemma X20_set_brightness_last_wins_witness :
  state (SmartLight.set_brightness 0
           (state (SmartLight.set_brightness 80 (SmartLight.init "Bedroom Light" 75))))
  = state (SmartLight.set_brightness 0 (SmartLight.init "Bedroom Light" 75)).
Proof.
  refine (proj1 (proj2 (proj2 (X20_set_brightness_last_wins
    (SmartLight.init "Bedroom Light" 75) (SmartLight.init "Bedroom Light" 75) 0 _ eq_refl)))
    80).
  lia.
Defined.

(** ** Method calls through the hub *)






(** ** Status lines *)

Lemma append_cons (c : ascii) (s t : string) : String c s +:+ t = String c (s +:+ t).
Proof. reflexivity. Qed.

Lemma append_cancel_l (p s t : string) : p +:+ s = p +:+ t -> s = t.
Proof.
  induction p as [| c p IH]; [done |].
  rewrite !append_cons. intros [= H]. by apply IH.
Qed.

Lemma append_length (s t : string) :
  String.length (s +:+ t) = (String.length s + String.length t)%nat.
Proof.
  induction s as [| c s IH]; [done |].
  rewrite append_cons. cbn [String.length Nat.add]. by rewrite IH.
Qed.

Lemma append_cancel_r (s t p : string) : s +:+ p = t +:+ p -> s = t.
Proof.
  revert t. induction s as [| c s IH]; intros [| c' t] H.
  - done.
  - apply (f_equal String.length) in H. rewrite !append_length in H.
    cbn [String.length] in H. lia.
  - apply (f_equal String.length) in H. rewrite !append_length in H.
    cbn [String.length] in H. lia.
  - rewrite !append_cons in H. injection H as -> H. f_equal. by apply IH.
Qed.

Lemma to_int_not_nil (z : Z) :
  Z.to_int z <> Decimal.Pos Decimal.Nil /\ Z.to_int z <> Decimal.Neg Decimal.Nil.
Proof.
  destruct z as [| p | p]; cbn; split; try done.
  - intros [= H]. by apply (DecimalPos.Unsigned.to_uint_nonnil p).
  - intros [= H]. by apply (DecimalPos.Unsigned.to_uint_nonnil p).
Qed.

Lemma str_inj (a b : Z) : str a = str b -> a = b.
Proof.
  unfold str. intros H. apply to_int_inj.
  apply (f_equal NilZero.int_of_string) in H.
  destruct (to_int_not_nil a) as [Ha1 Ha2], (to_int_not_nil b) as [Hb1 Hb2].
  rewrite !NilZero.isi in H by done. by injection H.
Qed.

Lemma append_nil (t : string) : "" +:+ t = t.
Proof. reflexivity. Qed.

Lemma append_assoc (s t u : string) : (s +:+ t) +:+ u = s +:+ (t +:+ u).
Proof.
  induction s as [| c s IH]; [done |]. rewrite !append_cons. by rewrite IH.
Qed.

(** X21: a status line tells the states of a device apart.  For two
    lights of the same name, equal status lines mean equal power flag
    and equal brightness, so the lights are equal; for two door locks
    of the same name, equal status lines mean equal [is_locked], and
    the line does not depend on the power flag; for two base devices
    of the same name, equal lines mean equal power flag. *)
Theorem X21_status_lines_tell_states_apart :
  (forall d d' : SmartDevice.t,
     SmartDevice.name d = SmartDevice.name d' ->
     SmartDevice.get_status d = SmartDevice.get_status d' -> d = d') /\
  (forall l l' : SmartLight.t,
     SmartLight.name l = SmartLight.name l' ->
     SmartLight.get_status l = SmartLight.get_status l' -> l = l') /\
  (forall k k' : SmartDoorLock.t,
     SmartDoorLock.name k = SmartDoorLock.name k' ->
     (SmartDoorLock.get_status k = SmartDoorLock.get_status k' <->
      SmartDoorLock.is_locked k = SmartDoorLock.is_locked k')).
Proof.
  split; [| split].
  - intros [n o] [n' o']. cbn. intros <- H.
    apply append_cancel_l in H. by destruct o, o'.
  - intros [[n o] b] [[n' o'] b']. unfold SmartLight.get_status, SmartDevice.get_status.
    cbn. intros <- H. rewrite !append_assoc in H.
    apply append_cancel_l in H. rewrite !append_cons, !append_nil in H.
    injection H as H. destruct o, o'; rewrite !append_cons, !append_nil in H; try done.
    + injection H as H. apply append_cancel_r, str_inj in H. by subst.
    + injection H as H. apply append_cancel_r, str_inj in H. by subst.
  - intros [[n o] b] [[n' o'] b']. unfold SmartDoorLock.get_status. cbn. intros <-.
    split.
    + intros H. apply append_cancel_l in H. by destruct b, b'.
    + by intros ->.
Qed.
